(** * SafeNSound: the refresh loop of the drone HUD and its nearest-airport query

    A shallow embedding of [SafeNSound.py].  Python floats are IEEE binary64
    values ([PrimFloat.float]), Python ints are [Z], dictionaries decoded from
    JSON are [gmap string _].  Calls that can raise return a [result]; code
    that also changes the HUD, the console or the Tk timer queue runs in the
    state-and-exception monad [M].  The third-party calls whose code is not
    part of the script (geopy's [geodesic], the HTTP replies, the attributes
    of the DroneKit vehicle, the building of the Tk window) are inputs of
    the model; only for the numeric scenario of the specification is the
    distance written out, as the haversine formula the specification
    names. *)

From Stdlib Require Import ZArith List Ascii String Floats Lia Sorted Permutation.
From stdpp Require Import gmap strings list fin_maps.

Set Warnings "-inexact-float,-register-all".
Local Open Scope Z_scope.

(** ** Exceptions and fallible calls *)

(** An instance of [Exception]: its class name and [str(e)]. *)
Record exn := Exn { exn_class : string; exn_str : string }.

Inductive result (A : Type) : Type :=
| Ok (a : A)
| Raise (e : exn).
Arguments Ok {A} a.
Arguments Raise {A} e.

#[export] Instance result_ret : MRet result := fun A a => Ok a.
#[export] Instance result_bind : MBind result := fun A B f r =>
  match r with
  | Ok a => f a
  | Raise e => Raise e
  end.

Definition is_ok {A} (r : result A) : bool :=
  match r with Ok _ => true | Raise _ => false end.

(** ** Python values *)

Inductive pyval :=
| PyNone
| PyBool (b : bool)
| PyInt (z : Z)
| PyFloat (f : float)
| PyStr (s : string)
| PyList (l : list pyval)
| PyDict (d : gmap string pyval).

(** [bool(v)]: the test of an [if v:]. *)
Definition truthy_float (f : float) : bool := negb (f =? 0)%float.

Definition truthy (v : pyval) : bool :=
  match v with
  | PyNone => false
  | PyBool b => b
  | PyInt z => negb (z =? 0)
  | PyFloat f => truthy_float f
  | PyStr s => negb (String.eqb s "")
  | PyList l => negb (Nat.eqb (length l) 0)
  | PyDict d => negb (Nat.eqb (size d) 0)
  end.

Definition type_name (v : pyval) : string :=
  match v with
  | PyNone => "NoneType"
  | PyBool _ => "bool"
  | PyInt _ => "int"
  | PyFloat _ => "float"
  | PyStr _ => "str"
  | PyList _ => "list"
  | PyDict _ => "dict"
  end.

(** [v.get(key, default)]: only dictionaries have the method. *)
Definition py_get (v : pyval) (key : string) (dflt : pyval) : result pyval :=
  match v with
  | PyDict d => Ok (default dflt (d !! key))
  | _ => Raise (Exn "AttributeError"
                  ("'" +:+ type_name v +:+ "' object has no attribute 'get'"))
  end.

(** ** Numbers: [int] and [float], and the three operators the script uses *)

Inductive number :=
| NInt (z : Z)
| NFloat (f : float).

(** [isinstance(v, (int, float))]; [bool] is a subclass of [int]. *)
Definition as_number (v : pyval) : option number :=
  match v with
  | PyBool b => Some (NInt (Z.b2z b))
  | PyInt z => Some (NInt z)
  | PyFloat f => Some (NFloat f)
  | _ => None
  end.

Definition SF_of_Z (z : Z) : spec_float :=
  match z with
  | Z0 => S754_zero false
  | Zpos p => S754_finite false p 0
  | Zneg p => S754_finite true p 0
  end.

(** [float(z)] of an int, rounded to nearest even. *)
Definition float_of_int (z : Z) : result float :=
  let f := SF2Prim (binary_normalize prec emax z 0 false) in
  if is_infinity f
  then Raise (Exn "OverflowError" "int too large to convert to float")
  else Ok f.

(** [a / b] on two ints: the correctly rounded quotient. *)
Definition int_truediv (a b : Z) : result float :=
  if b =? 0 then Raise (Exn "ZeroDivisionError" "division by zero")
  else
    let q := SF2Prim (SFdiv prec emax (SF_of_Z a) (SF_of_Z b)) in
    if is_infinity q
    then Raise (Exn "OverflowError" "integer division result too large for a float")
    else Ok q.

Definition to_float (n : number) : result float :=
  match n with
  | NInt z => float_of_int z
  | NFloat f => Ok f
  end.

Definition py_mul (x y : number) : result number :=
  match x, y with
  | NInt a, NInt b => Ok (NInt (a * b))
  | _, _ => a ← to_float x; b ← to_float y; Ok (NFloat (a * b)%float)
  end.

Definition py_truediv (x y : number) : result number :=
  match x, y with
  | NInt a, NInt b => q ← int_truediv a b; Ok (NFloat q)
  | _, _ =>
      a ← to_float x; b ← to_float y;
      if (b =? 0)%float
      then Raise (Exn "ZeroDivisionError" "float division by zero")
      else Ok (NFloat (a / b)%float)
  end.

Definition py_add (x y : number) : result number :=
  match x, y with
  | NInt a, NInt b => Ok (NInt (a + b))
  | _, _ => a ← to_float x; b ← to_float y; Ok (NFloat (a + b)%float)
  end.

Definition number_val (n : number) : pyval :=
  match n with
  | NInt z => PyInt z
  | NFloat f => PyFloat f
  end.

(** ** Formatted text

    The labels hold f-strings.  A text is kept as the sequence of its parts:
    literal characters, [str(v)] of an interpolated value, and a float under
    the format [.2f]. *)

Inductive piece :=
| Lit (s : string)
| Str (v : pyval)
| Fixed2 (f : float).

Definition text := list piece.

Definition LF : string := String "010"%char "".

(** ** Airports and the nearest-airport query *)

(** One entry of [airports]: the dictionary with the keys [name],
    [iata_code] and [location] that the main block builds per row. *)
Record airport := Airport {
  name : string;
  iata_code : string;
  location : float * float
}.

(** [list.sort(key=...)] compares the keys with [<] only and is stable.
    Insertion from the right keeps an element in front of the later ones it
    does not exceed.  On keys that [<] orders, that is when no key is NaN, a
    stable sort has a single possible result ([stable_sort_unique] below)
    and [sort_by_key] computes it.  With a NaN among the keys the result of
    CPython's merge sort depends on the runs it finds and is not the one
    computed here: the theorems about the order in which the query returns
    its entries assume that no distance is NaN. *)
Section Sort.
Context {A : Type} (key : A → float).

Fixpoint insert_by_key (x : A) (l : list A) : list A :=
  match l with
  | [] => [x]
  | y :: ys =>
      if (key y <? key x)%float then y :: insert_by_key x ys else x :: y :: ys
  end.

Fixpoint sort_by_key (l : list A) : list A :=
  match l with
  | [] => []
  | x :: xs => insert_by_key x (sort_by_key xs)
  end.

(** The order the sort establishes, the ties it must not reorder, and the
    keys that can be ordered at all (every comparison with NaN is false). *)
Definition key_le (x y : A) : Prop := (key x <=? key y)%float = true.

Definition key_tie (d : float) (x : A) : bool := (key x =? d)%float.

Definition keyed (x : A) : Prop := is_nan (key x) = false.
End Sort.

(** [l[:stop]]: a negative [stop] counts from the end. *)
Definition slice_to {A : Type} (l : list A) (stop : Z) : list A :=
  if stop <? 0
  then take (Z.to_nat (Z.of_nat (length l) + stop)) l
  else take (Z.to_nat stop) l.

Section Nearest.
(** [geodesic(p, q).km] of geopy: a distance, or the exception geopy raises
    for a point it rejects. *)
Variable geodesic : float * float → float * float → result float.

(** The [for airport in airports] loop, appending to [airport_distances]. *)
Fixpoint distance_loop (origin : float * float) (airports : list airport)
    (airport_distances : list (airport * float)) : result (list (airport * float)) :=
  match airports with
  | [] => Ok airport_distances
  | airport :: rest =>
      let airport_location := ((location airport).1, (location airport).2) in
      distance ← geodesic origin airport_location;
      distance_loop origin rest (airport_distances ++ [(airport, distance)])
  end.

Definition find_nearest_airports (user_lat user_lon : float)
    (airports : list airport) (num_airports : Z) : result (list (airport * float)) :=
  airport_distances ← distance_loop (user_lat, user_lon) airports [];
  Ok (slice_to (sort_by_key snd airport_distances) num_airports).

(** An entry pairs an airport with the distance geopy gave for it. *)
Definition measured (origin : float * float) (entry : airport * float) : Prop :=
  geodesic origin (location entry.1) = Ok entry.2.
End Nearest.

(** The default [num_airports=5] of the signature. *)
Definition default_num_airports : Z := 5.

(** ** The program state and its monad *)

(** What the running script can change: the three [StringVar]s of the HUD,
    the console, Tk's queue of pending [after] callbacks (only [update] is
    ever registered, so a timer is its due time, in milliseconds), and the
    clock.  [spans] logs the entry and exit time of every execution of
    [update], as instrumenting the callback would. *)
Record app := App {
  telemetry_label : text;
  weather_label : text;
  airport_label : text;
  stdout : list text;
  now : Z;
  after_queue : list Z;
  spans : list (Z * Z)
}.

Definition M (A : Type) : Type := app → result A * app.

#[export] Instance M_ret : MRet M := fun A a s => (Ok a, s).
#[export] Instance M_bind : MBind M := fun A B f m s =>
  match m s with
  | (Ok a, s') => f a s'
  | (Raise e, s') => (Raise e, s')
  end.

Definition lift {A} (r : result A) : M A := fun s => (r, s).

Definition raise {A} (e : exn) : M A := lift (Raise e).

(** [try: body except Exception as e: handler(e)]; what [body] changed before
    it raised stays changed. *)
Definition try_except {A} (body : M A) (handler : exn → M A) : M A := fun s =>
  match body s with
  | (Ok a, s') => (Ok a, s')
  | (Raise e, s') => handler e s'
  end.

Definition set_telemetry_label (t : text) : M unit := fun s =>
  (Ok tt, App t (weather_label s) (airport_label s) (stdout s) (now s)
            (after_queue s) (spans s)).

Definition set_weather_label (t : text) : M unit := fun s =>
  (Ok tt, App (telemetry_label s) t (airport_label s) (stdout s) (now s)
            (after_queue s) (spans s)).

Definition set_airport_label (t : text) : M unit := fun s =>
  (Ok tt, App (telemetry_label s) (weather_label s) t (stdout s) (now s)
            (after_queue s) (spans s)).

Definition print (t : text) : M unit := fun s =>
  (Ok tt, App (telemetry_label s) (weather_label s) (airport_label s)
            (stdout s ++ [t]) (now s) (after_queue s) (spans s)).

(** A blocking call that takes [ms] milliseconds. *)
Definition elapse (ms : N) : M unit := fun s =>
  (Ok tt, App (telemetry_label s) (weather_label s) (airport_label s)
            (stdout s) (now s + Z.of_N ms) (after_queue s) (spans s)).

Fixpoint enqueue (due : Z) (q : list Z) : list Z :=
  match q with
  | [] => [due]
  | d :: q' => if due <? d then due :: q else d :: enqueue due q'
  end.

(** [root.after(ms, update)]: Tk keeps its timers ordered by due time. *)
Definition root_after (ms : Z) : M unit := fun s =>
  (Ok tt, App (telemetry_label s) (weather_label s) (airport_label s)
            (stdout s) (now s) (enqueue (now s + ms) (after_queue s)) (spans s)).

(** ** What the outside world answers during one cycle *)

(** The DroneKit vehicle, as the outcome of reading each attribute that
    [get_telemetry_data] reads. *)
Record vehicle := Vehicle {
  global_frame_lat : result pyval;
  global_frame_lon : result pyval;
  global_frame_alt : result pyval;
  groundspeed : result pyval;
  battery_level : result pyval;
  mode_name : result pyval
}.

(** A [requests] response: its [status_code] and the outcome of [.json()]. *)
Record response := Response {
  status_code : Z;
  json : result pyval
}.

Record world := World {
  w_vehicle : vehicle;
  (** [requests.get(weather_url)] for a latitude and a longitude *)
  w_weather_api : float → float → result response;
  (** how long the three steps block, and how late Tk fires the timer *)
  w_telemetry_ms : N;
  w_weather_ms : N;
  w_airports_ms : N;
  w_lag_ms : N
}.

Record telemetry := Telemetry {
  latitude : pyval;
  longitude : pyval;
  altitude : pyval;
  ground_speed : pyval;
  battery : pyval;
  mode : pyval
}.

(** ** Weather *)

Definition get_weather_data (w : world) (lat lon : float) : M pyval :=
  _ ← elapse (w_weather_ms w);
  response ← lift (w_weather_api w lat lon);
  if status_code response =? 200
  then lift (json response)
  else
    _ ← print [Lit "Failed to retrieve weather data: "; Str (PyInt (status_code response))];
    mret PyNone.

(** [(celsius * 9/5) + 32 if isinstance(celsius, (int, float)) else "N/A"] *)
Definition fahrenheit_of (celsius : pyval) : result pyval :=
  match as_number celsius with
  | Some c =>
      c9 ← py_mul c (NInt 9);
      q ← py_truediv c9 (NInt 5);
      f ← py_add q (NInt 32);
      Ok (number_val f)
  | None => Ok (PyStr "N/A")
  end.

Definition weather_text (celsius fahrenheit wind_speed : pyval) : text :=
  [Lit "Current Temperature: "; Str celsius; Lit " C / "; Str fahrenheit;
   Lit (" F" +:+ LF); Lit "Current Wind Speed: "; Str wind_speed; Lit " m/s"].

Definition telemetry_text (telemetry_data : telemetry) : text :=
  [Lit "Latitude: "; Str (latitude telemetry_data); Lit LF;
   Lit "Longitude: "; Str (longitude telemetry_data); Lit LF;
   Lit "Altitude: "; Str (altitude telemetry_data); Lit (" meters" +:+ LF);
   Lit "Ground Speed: "; Str (ground_speed telemetry_data); Lit (" m/s" +:+ LF);
   Lit "Battery: "; Str (battery telemetry_data); Lit ("%" +:+ LF);
   Lit "Mode: "; Str (mode telemetry_data)].

Definition airport_line (entry : airport * float) : text :=
  [Lit (name entry.1); Lit " ("; Lit (iata_code entry.1); Lit ") - ";
   Fixed2 entry.2; Lit (" km" +:+ LF)].

(** ** The HUD *)

Module HUD.
Definition get_telemetry_data (v : vehicle) : result telemetry :=
  lat ← global_frame_lat v;
  lon ← global_frame_lon v;
  alt ← global_frame_alt v;
  speed ← groundspeed v;
  level ← battery_level v;
  mode ← mode_name v;
  Ok (Telemetry lat lon alt speed level mode).

Definition update_telemetry (w : world) : M unit :=
  try_except
    (_ ← elapse (w_telemetry_ms w);
     telemetry_data ← lift (get_telemetry_data (w_vehicle w));
     set_telemetry_label (telemetry_text telemetry_data))
    (fun e => set_telemetry_label [Lit "Error fetching telemetry: "; Lit (exn_str e)]).

Definition update_weather (w : world) (lat lon : float) : M unit :=
  weather_data ← get_weather_data w lat lon;
  if truthy weather_data
  then
    current_weather ← lift (py_get weather_data "current_weather" (PyDict ∅));
    celsius ← lift (py_get current_weather "temperature" (PyStr "N/A"));
    fahrenheit ← lift (fahrenheit_of celsius);
    wind_speed ← lift (py_get current_weather "windspeed" (PyStr "N/A"));
    set_weather_label (weather_text celsius fahrenheit wind_speed)
  else set_weather_label [Lit "Failed to retrieve weather data."].

Section Airports.
Variable geodesic : float * float → float * float → result float.

Definition update_airports (w : world) (user_lat user_lon : float)
    (airports : list airport) : M unit :=
  _ ← elapse (w_airports_ms w);
  nearest_airports ←
    lift (find_nearest_airports geodesic user_lat user_lon airports
            default_num_airports);
  set_airport_label
    (fold_left (fun airport_text entry => airport_text ++ airport_line entry)
       nearest_airports [Lit ("Nearest Airports:" +:+ LF)]).
End Airports.
End HUD.

(** ** The refresh cycle, the Tk main loop and the main block *)

(** Runs [body] and logs when it was entered and left. *)
Definition logged (body : M unit) : M unit := fun s =>
  let entered := now s in
  match body s with
  | (r, s') =>
      (r, App (telemetry_label s') (weather_label s') (airport_label s')
            (stdout s') (now s') (after_queue s')
            (spans s' ++ [(entered, now s')]))
  end.

(** Tk takes the first pending timer, waits until it is due (and [lag]
    longer) and removes it from the queue before calling it. *)
Definition fire (due : Z) (pending : list Z) (lag : N) (s : app) : app :=
  App (telemetry_label s) (weather_label s) (airport_label s) (stdout s)
    (Z.max (now s) due + Z.of_N lag) pending (spans s).

Section Engine.
Variable geodesic : float * float → float * float → result float.
(** What the closure [update] captures from the main block. *)
Variables (user_lat user_lon : float) (airports : list airport).

Definition update (w : world) : M unit :=
  logged
    (_ ← HUD.update_telemetry w;
     _ ← HUD.update_weather w user_lat user_lon;
     _ ← HUD.update_airports geodesic w user_lat user_lon airports;
     root_after 5000).

(** [root.mainloop()], observed for as many timer callbacks as [later] has
    worlds.  An exception that leaves a callback is reported by Tk and the
    loop goes on; with no timer pending the loop only idles. *)
Fixpoint run_timers (later : list world) (s : app) : app :=
  match later with
  | [] => s
  | w :: later' =>
      match after_queue s with
      | [] => s
      | due :: pending =>
          run_timers later' (update w (fire due pending (w_lag_ms w) s)).2
      end
  end.

Definition mainloop (later : list world) : M unit := fun s =>
  (Ok tt, run_timers later s).
End Engine.

(** What the main block asks of the outside world before the first cycle, in
    the order of the source: the parsed OpenFlights table, the window
    ([root = Tk()] followed by [hud = HUD(root)], which raise [TclError] where
    no display can be opened), the outcome of the body of the [try] in
    [get_user_location] (the request to ipinfo.io, its JSON and the two
    [float(...)] conversions), and [connect(...)]. *)
Record startup := Startup {
  read_csv : result (list airport);
  open_window : result unit;
  ipinfo : result (float * float);
  connect : result unit
}.

Definition get_user_location (env : startup) : M (option float * option float) :=
  try_except
    (loc ← lift (ipinfo env);
     mret (Some loc.1, Some loc.2))
    (fun e =>
       _ ← print [Lit "Failed to retrieve location: "; Lit (exn_str e)];
       mret (None, None)).

(** [if user_lat and user_lon:] *)
Definition location_known (user_lat user_lon : option float) : bool :=
  match user_lat, user_lon with
  | Some lat, Some lon => truthy_float lat && truthy_float lon
  | _, _ => false
  end.

(** The main block, from loading the dataset to the main loop, inside its
    [try ... except Exception as e: print(f"Error: {e}")].  [first] is what
    the world answers during the direct call of [update], [later] during the
    timer callbacks.  Building the window ([Tk()], [HUD(root)]) changes
    nothing the model keeps when it succeeds (the three labels start empty,
    as in [boot]); when it raises, the exception is handled like any other
    of the block. *)
Definition main (geodesic : float * float → float * float → result float)
    (env : startup) (first : world) (later : list world) : M unit :=
  try_except
    (airports ← lift (read_csv env);
     _ ← lift (open_window env);
     loc ← get_user_location env;
     match loc with
     | (Some user_lat, Some user_lon) =>
         if location_known (Some user_lat) (Some user_lon)
         then
           _ ← print [Lit "User's location: Latitude "; Str (PyFloat user_lat);
                      Lit ", Longitude "; Str (PyFloat user_lon)];
           _ ← lift (connect env);
           _ ← update geodesic user_lat user_lon airports first;
           mainloop geodesic user_lat user_lon airports later
         else raise (Exn "Exception" "Unable to determine user's location.")
     | _ => raise (Exn "Exception" "Unable to determine user's location.")
     end)
    (fun e => print [Lit "Error: "; Lit (exn_str e)]).

(** The state when the script starts, at clock [t0]. *)
Definition boot (t0 : Z) : app := App [] [] [] [] t0 [] [].

(** The engine has begun cycling when [update] was entered at least once. *)
Definition cycling (s : app) : bool := negb (Nat.eqb (length (spans s)) 0).

(** ** Properties stated about the model *)

Definition not_nan (d : float) : Prop := is_nan d = false.

(** Entries at distance [d]: floats tie when [==] holds. *)
Definition tie (d : float) : airport * float → bool := key_tie snd d.

(** Non-decreasing distance. *)
Definition le_distance : airport * float → airport * float → Prop := key_le snd.

(** Each execution is entered at least 5000 ms after the one before it was
    left. *)
Fixpoint separated (l : list (Z * Z)) : Prop :=
  match l with
  | [] => True
  | (a, b) :: rest =>
      a ≤ b ∧
      match rest with
      | [] => True
      | (c, _) :: _ => b + 5000 ≤ c
      end ∧ separated rest
  end.

(** The timer queue is empty or holds the one callback that the last
    execution registered when it was left, due 5000 ms after that. *)
Definition paced (s : app) : Prop :=
  separated (spans s) ∧
  match last (spans s) with
  | None => after_queue s = []
  | Some (_, exited) =>
      exited ≤ now s ∧ (after_queue s = [] ∨ after_queue s = [exited + 5000])
  end.

(** ** The great-circle distance of the specification

    The script takes every distance from geopy, whose code is not part of
    the repository.  The specification names the haversine formula; it is
    written out here in binary64, with the functions of the math library
    evaluated by their series. *)

(** Modelled from the spec: the constant pi of the missing math library. *)
Definition pi : float := 3.141592653589793%float.

(** Modelled from the spec: degrees to radians, for the missing math library. *)
Definition radians (degrees : float) : float := (degrees * (pi / 180))%float.

(** Modelled from the spec: the alternating series shared by sine and cosine,
    in nested form, for the missing math library. *)
Fixpoint alternating (n : nat) (k x2 : float) : float :=
  match n with
  | O => 1%float
  | S n' => (1 - x2 / (k * (k + 1)) * alternating n' (k + 2) x2)%float
  end.

(** Modelled from the spec: the sine of the missing math library. *)
Definition sin (x : float) : float := (x * alternating 16 2 (x * x))%float.

(** Modelled from the spec: the cosine of the missing math library. *)
Definition cos (x : float) : float := alternating 16 1 (x * x)%float.

(** Modelled from the spec: the series of the arctangent, in nested form,
    for the missing math library. *)
Fixpoint gregory (n : nat) (k t2 : float) : float :=
  match n with
  | O => (1 / k)%float
  | S n' => (1 / k - t2 * gregory n' (k + 2) t2)%float
  end.

(** Modelled from the spec: tan(a/2) from tan(a), used to bring the argument
    of the arctangent near zero. *)
Definition half_angle (t : float) : float := (t / (1 + sqrt (1 + t * t)))%float.

(** Modelled from the spec: the arcsine of the missing math library, as
    2 atan(y / (1 + sqrt(1 - y^2))) with two more halvings. *)
Definition asin (y : float) : float :=
  let t := half_angle (half_angle (y / (1 + sqrt (1 - y * y)))) in
  (8 * (t * gregory 24 1 (t * t)))%float.

(** Modelled from the spec: the mean Earth radius in kilometres; the
    specification fixes no radius. *)
Definition earth_radius_km : float := 6371%float.

(** Modelled from the spec: the great-circle distance in kilometres by the
    haversine formula, standing for geopy's missing distance function. *)
Definition haversine_km (p q : float * float) : float :=
  let lat1 := radians p.1 in
  let lat2 := radians q.1 in
  let dlat := radians (q.1 - p.1) in
  let dlon := radians (q.2 - p.2) in
  let s1 := sin (dlat / 2) in
  let s2 := sin (dlon / 2) in
  let a := (s1 * s1 + cos lat1 * cos lat2 * (s2 * s2))%float in
  (2 * earth_radius_km * asin (sqrt a))%float.

(** Modelled from the spec: the haversine distance as the distance call of
    the query, which never raises. *)
Definition great_circle (p q : float * float) : result float := Ok (haversine_km p q).

(** ** Sample data to run the model on *)

Module Sample.
Definition tst : airport := Airport "Test Airfield" "TST" (40.0, -73.0)%float.
Definition jfk : airport := Airport "John F Kennedy Intl" "JFK" (40.6398, -73.7789)%float.
Definition lga : airport := Airport "La Guardia" "LGA" (40.7772, -73.8726)%float.
Definition twin : airport := Airport "Mirror Field" "MIR" (40.0, -73.2)%float.
Definition heliport : airport := Airport "Test Heliport" "TSH" (40.0, -73.0)%float.

(** A planar stand-in for geopy: it rejects a latitude outside [-90, 90]
    as geopy does and otherwise measures degrees at 111.195 km each. *)
Definition plane_geodesic (p q : float * float) : result float :=
  if ((PrimFloat.abs p.1 <=? 90) && (PrimFloat.abs q.1 <=? 90))%float
  then
    let dlat := (p.1 - q.1)%float in
    let dlon := (p.2 - q.2)%float in
    Ok (111.195 * sqrt (dlat * dlat + dlon * dlon))%float
  else Raise (Exn "ValueError" "Latitude must be in the [-90; 90] range.").

Definition flying : vehicle :=
  Vehicle (Ok (PyFloat 40.01)) (Ok (PyFloat (-73.05))) (Ok (PyFloat 120.5))
    (Ok (PyFloat 12.25)) (Ok (PyInt 87)) (Ok (PyStr "AUTO")).

Definition link_lost : vehicle :=
  Vehicle (Raise (Exn "APIException" "Timeout in initializing connection."))
    (Ok (PyFloat (-73.05))) (Ok (PyFloat 120.5))
    (Ok (PyFloat 12.25)) (Ok (PyInt 87)) (Ok (PyStr "AUTO")).

Definition current (fields : list (string * pyval)) : pyval :=
  PyDict {[ "current_weather" := PyDict (list_to_map fields) ]}.

Definition sunny : float → float → result response := fun _ _ =>
  Ok (Response 200 (Ok (current [("temperature", PyFloat 21.5); ("windspeed", PyFloat 3.4)]))).

Definition no_temperature : float → float → result response := fun _ _ =>
  Ok (Response 200 (Ok (current [("windspeed", PyFloat 3.4)]))).

Definition no_windspeed : float → float → result response := fun _ _ =>
  Ok (Response 200 (Ok (current [("temperature", PyInt 20)]))).

(** An int temperature whose quotient by 5 is beyond the floats. *)
Definition off_scale : float → float → result response := fun _ _ =>
  Ok (Response 200 (Ok (current [("temperature", PyInt (10 ^ 400))]))).

Definition mild : float → float → result response := fun _ _ =>
  Ok (Response 200 (Ok (current [("temperature", PyInt 20); ("windspeed", PyFloat 3.4)]))).

Definition empty_body : float → float → result response := fun _ _ =>
  Ok (Response 200 (Ok (PyDict ∅))).

Definition server_error : float → float → result response := fun _ _ =>
  Ok (Response 500 (Raise (Exn "JSONDecodeError" "Expecting value: line 1 column 1 (char 0)"))).

Definition unreachable : float → float → result response := fun _ _ =>
  Raise (Exn "ConnectionError" "Max retries exceeded with url: /v1/forecast").

Definition calm : world := World flying sunny 40 350 900 3.
Definition telemetry_down : world := World link_lost sunny 2000 350 900 0.
Definition weather_down : world := World flying unreachable 40 30000 900 0.

Definition here : startup := Startup (Ok [jfk; tst; lga]) (Ok tt) (Ok (40.0, -73.1)%float) (Ok tt).
Definition on_equator : startup := Startup (Ok [jfk; tst; lga]) (Ok tt) (Ok (0.0, 10.0)%float) (Ok tt).
Definition offline : startup :=
  Startup (Ok [jfk; tst; lga]) (Ok tt) (Raise (Exn "ConnectionError" "Max retries exceeded")) (Ok tt).
(** No display: [Tk()] raises [TclError]. *)
Definition headless : startup :=
  Startup (Ok [jfk; tst; lga])
    (Raise (Exn "TclError" "no display name and no $DISPLAY environment variable"))
    (Ok (40.0, -73.1)%float) (Ok tt).
End Sample.

(** ** The reply of the location service in detail

    The body of the [try] in [get_user_location], call by call.  Python's
    [float(...)] of a string is an input here, like the other library
    calls. *)

(** [v[key]] for a string [key]. *)
Definition py_getitem (v : pyval) (key : string) : result pyval :=
  match v with
  | PyDict d =>
      match d !! key with
      | Some x => Ok x
      | None => Raise (Exn "KeyError" ("'" +:+ key +:+ "'"))
      end
  | PyList _ => Raise (Exn "TypeError" "list indices must be integers or slices, not str")
  | PyStr _ => Raise (Exn "TypeError" "string indices must be integers, not 'str'")
  | _ => Raise (Exn "TypeError" ("'" +:+ type_name v +:+ "' object is not subscriptable"))
  end.

(** [s.split(sep)] for a separator of one character: every occurrence
    splits, empty parts are kept. *)
Fixpoint split_on (sep : ascii) (s : string) : list string :=
  match s with
  | EmptyString => [""]
  | String c rest =>
      if Ascii.eqb c sep then "" :: split_on sep rest
      else
        match split_on sep rest with
        | part :: parts => String c part :: parts
        | [] => [String c ""]
        end
  end.

(** [v.split(',')]: only strings have the method. *)
Definition py_split (v : pyval) : result (list string) :=
  match v with
  | PyStr s => Ok (split_on ","%char s)
  | _ => Raise (Exn "AttributeError"
                  ("'" +:+ type_name v +:+ "' object has no attribute 'split'"))
  end.

(** [l[i]] for an index within [0, len(l)) or beyond it. *)
Definition py_item (l : list string) (i : nat) : result string :=
  match l !! i with
  | Some x => Ok x
  | None => Raise (Exn "IndexError" "list index out of range")
  end.

Section Location.
(** [float(s)] of a string. *)
Variable py_float : string → result float.

(** [requests.get(...)], [.json()], [data['loc'].split(',')] and the two
    conversions, in the order the script evaluates them. *)
Definition request_location (reply : result response) : result (float * float) :=
  response ← reply;
  data ← json response;
  loc_field ← py_getitem data "loc";
  loc ← py_split loc_field;
  first ← py_item loc 0;
  lat ← py_float first;
  second ← py_item loc 1;
  lon ← py_float second;
  Ok (lat, lon).
End Location.

(** A world in which the weather step and the airport query return. *)
Definition cycle_succeeds (geodesic : float * float → float * float → result float)
    (user_lat user_lon : float) (airports : list airport) (w : world) : bool :=
  is_ok (HUD.update_weather w user_lat user_lon (boot 0)).1 &&
  is_ok (find_nearest_airports geodesic user_lat user_lon airports default_num_airports).

(** The six attribute reads of [get_telemetry_data], in the order of the
    dictionary display. *)
Definition telemetry_reads (v : vehicle) : list (result pyval) :=
  [global_frame_lat v; global_frame_lon v; global_frame_alt v;
   groundspeed v; battery_level v; mode_name v].

Module Fixture.
(** A stand-in for [float(...)] on the few strings the examples use. *)
Definition parse_float (s : string) : result float :=
  if String.eqb s "40.0" then Ok 40.0%float
  else if String.eqb s "-73.1" then Ok (-73.1)%float
  else if String.eqb s "0.0" then Ok 0.0%float
  else Raise (Exn "ValueError" ("could not convert string to float: '" +:+ s +:+ "'")).

Definition ipinfo_reply (loc : string) : result response :=
  Ok (Response 200 (Ok (PyDict {[ "ip" := PyStr "203.0.113.7"; "loc" := PyStr loc ]}))).

Definition rate_limited : result response :=
  Ok (Response 429 (Ok (PyDict {[ "error" := PyStr "rate limit exceeded" ]}))).

Definition polar : airport := Airport "Beyond The Pole" "BTP" (95.0, 10.0)%float.
End Fixture.

(** * Facts *)

(** ** The order of binary64 values

    [<], [<=] and [==] on floats are read through their specification on
    [spec_float]; away from NaN they form a total preorder. *)

Module FloatOrder.
Ltac sf_cases :=
  repeat match goal with
    | s : bool |- _ => destruct s
    end;
  cbn in *;
  repeat match goal with
    | |- context [Z.compare ?a ?b] => destruct (Z.compare_spec a b); cbn in *
    | H : context [Z.compare ?a ?b] |- _ => destruct (Z.compare_spec a b); cbn in *
    | |- context [Pos.compare_cont Eq ?a ?b] =>
        change (Pos.compare_cont Eq a b) with (Pos.compare a b);
        destruct (Pos.compare_spec a b); cbn in *
    | H : context [Pos.compare_cont Eq ?a ?b] |- _ =>
        change (Pos.compare_cont Eq a b) with (Pos.compare a b) in H;
        destruct (Pos.compare_spec a b); cbn in *
    end;
  subst; try congruence; try lia.

Ltac sf_solve := unfold SFltb, SFleb, SFeqb; intros; sf_cases.

Lemma SFleb_trans x y z : SFleb x y = true → SFleb y z = true → SFleb x z = true.
Proof. destruct x, y, z; sf_solve. Qed.

Lemma SFltb_leb x y : SFltb x y = true → SFleb x y = true.
Proof. destruct x, y; sf_solve. Qed.

Lemma SFnltb_leb x y :
  x ≠ S754_nan → y ≠ S754_nan → SFltb y x = false → SFleb x y = true.
Proof. destruct x, y; sf_solve. Qed.

Lemma SFleb_nltb x y : SFleb x y = true → SFltb y x = false.
Proof. destruct x, y; sf_solve. Qed.

Lemma SFeqb_nltb x y d : SFeqb x d = true → SFeqb y d = true → SFltb y x = false.
Proof. destruct x, y, d; sf_solve. Qed.

Lemma SFeqb_refl x : x ≠ S754_nan → SFeqb x x = true.
Proof. destruct x; sf_solve. Qed.

Lemma SFeqb_sym x y : SFeqb x y = SFeqb y x.
Proof. destruct x, y; sf_solve. Qed.

Lemma SFleb_antisym x y : SFleb x y = true → SFleb y x = true → SFeqb x y = true.
Proof. destruct x, y; sf_solve. Qed.

Lemma SFeqb_not_nan x y : SFeqb x y = true → x ≠ S754_nan.
Proof. destruct x, y; sf_solve. Qed.

Lemma not_nan_spec x : not_nan x ↔ Prim2SF x ≠ S754_nan.
Proof.
  unfold not_nan, is_nan. rewrite FloatAxioms.eqb_spec.
  destruct (Prim2SF x); split; sf_solve.
Qed.

Lemma leb_trans x y z :
  (x <=? y)%float = true → (y <=? z)%float = true → (x <=? z)%float = true.
Proof. rewrite !FloatAxioms.leb_spec. apply SFleb_trans. Qed.

Lemma ltb_leb x y : (x <? y)%float = true → (x <=? y)%float = true.
Proof. rewrite FloatAxioms.ltb_spec, FloatAxioms.leb_spec. apply SFltb_leb. Qed.

Lemma nltb_leb x y :
  not_nan x → not_nan y → (y <? x)%float = false → (x <=? y)%float = true.
Proof.
  intros Hx%not_nan_spec Hy%not_nan_spec. rewrite FloatAxioms.ltb_spec, FloatAxioms.leb_spec.
  by apply SFnltb_leb.
Qed.

Lemma leb_nltb x y : (x <=? y)%float = true → (y <? x)%float = false.
Proof. rewrite FloatAxioms.ltb_spec, FloatAxioms.leb_spec. apply SFleb_nltb. Qed.

Lemma eqb_nltb x y d :
  (x =? d)%float = true → (y =? d)%float = true → (y <? x)%float = false.
Proof. rewrite !FloatAxioms.eqb_spec, FloatAxioms.ltb_spec. apply SFeqb_nltb. Qed.

Lemma eqb_refl x : not_nan x → (x =? x)%float = true.
Proof. intros Hx%not_nan_spec. rewrite FloatAxioms.eqb_spec. by apply SFeqb_refl. Qed.

Lemma eqb_sym x y : (x =? y)%float = (y =? x)%float.
Proof. rewrite !FloatAxioms.eqb_spec. apply SFeqb_sym. Qed.

Lemma leb_antisym x y :
  (x <=? y)%float = true → (y <=? x)%float = true → (x =? y)%float = true.
Proof. rewrite !FloatAxioms.leb_spec, FloatAxioms.eqb_spec. apply SFleb_antisym. Qed.

Lemma eqb_not_nan x y : (x =? y)%float = true → not_nan x.
Proof. rewrite FloatAxioms.eqb_spec. intros H. apply not_nan_spec. by eapply SFeqb_not_nan. Qed.
End FloatOrder.

(** ** The sort: a stable, ordered rearrangement *)

Section SortFacts.
Context {A : Type} (key : A → float).

Lemma insert_by_key_perm x l : insert_by_key key x l ≡ₚ x :: l.
Proof.
  induction l as [|y ys IH]; simpl; [done|].
  destruct (key y <? key x)%float; [|done].
  rewrite IH. apply Permutation_swap.
Qed.

Lemma sort_by_key_perm l : sort_by_key key l ≡ₚ l.
Proof.
  induction l as [|x xs IH]; simpl; [done|].
  by rewrite insert_by_key_perm, IH.
Qed.

Lemma sort_by_key_length l : length (sort_by_key key l) = length l.
Proof. by rewrite sort_by_key_perm. Qed.

Lemma insert_by_key_hd y x l :
  key_le key y x → HdRel (key_le key) y l →
  HdRel (key_le key) y (insert_by_key key x l).
Proof.
  intros Hyx Hl. destruct l as [|z zs]; simpl; [by constructor|].
  inversion_clear Hl. destruct (key z <? key x)%float; by constructor.
Qed.

Lemma insert_by_key_sorted x l :
  keyed key x → Forall (keyed key) l → Sorted (key_le key) l →
  Sorted (key_le key) (insert_by_key key x l).
Proof.
  intros Hx. induction l as [|y ys IH]; intros Hl Hs; simpl.
  - repeat constructor.
  - inversion_clear Hl as [|? ? Hy Hys]. inversion_clear Hs as [|? ? Hs' Hhd].
    destruct (key y <? key x)%float eqn:Hlt.
    + constructor; [by apply IH|].
      apply insert_by_key_hd; [|done]. by apply FloatOrder.ltb_leb.
    + constructor; [by constructor|].
      constructor. by apply FloatOrder.nltb_leb.
Qed.

Lemma sort_by_key_sorted l :
  Forall (keyed key) l → Sorted (key_le key) (sort_by_key key l).
Proof.
  induction l as [|x xs IH]; intros Hl; simpl; [constructor|].
  inversion_clear Hl. apply insert_by_key_sorted; [done| |by apply IH].
  by rewrite sort_by_key_perm.
Qed.

(** Elements whose keys tie keep the order they had. *)
Lemma insert_by_key_stable d x l :
  List.filter (key_tie key d) (insert_by_key key x l) = List.filter (key_tie key d) (x :: l).
Proof.
  induction l as [|y ys IH]; [done|].
  simpl insert_by_key. destruct (key y <? key x)%float eqn:Hlt; [|done].
  simpl in *. rewrite IH.
  destruct (key_tie key d x) eqn:Hx, (key_tie key d y) eqn:Hy; try done.
  unfold key_tie in *. by rewrite (FloatOrder.eqb_nltb _ _ _ Hx Hy) in Hlt.
Qed.

Lemma sort_by_key_stable d l :
  List.filter (key_tie key d) (sort_by_key key l) = List.filter (key_tie key d) l.
Proof.
  induction l as [|x xs IH]; [done|].
  simpl sort_by_key. rewrite insert_by_key_stable. simpl. by rewrite IH.
Qed.

Lemma key_le_trans x y z : key_le key x y → key_le key y z → key_le key x z.
Proof. apply FloatOrder.leb_trans. Qed.

Lemma key_tie_refl x : keyed key x → key_tie key (key x) x = true.
Proof. intros Hx. unfold key_tie. by apply FloatOrder.eqb_refl. Qed.

Lemma tie_head_nonempty x l :
  keyed key x → List.filter (key_tie key (key x)) (x :: l) ≠ [].
Proof. intros Hx. cbn [List.filter]. by rewrite key_tie_refl. Qed.

(** An ordered list is determined by the order of its ties: two ordered
    lists with the same elements at every key, in the same order, are the
    same list. *)
Lemma sorted_ties_unique l1 l2 :
  Forall (keyed key) l1 → Forall (keyed key) l2 →
  StronglySorted (key_le key) l1 → StronglySorted (key_le key) l2 →
  (∀ d, List.filter (key_tie key d) l1 = List.filter (key_tie key d) l2) →
  l1 = l2.
Proof.
  revert l2. induction l1 as [|x l1 IH]; intros l2 Hk1 Hk2 Hs1 Hs2 Hties.
  - destruct l2 as [|y l2]; [done|].
    inversion_clear Hk2 as [|? ? Hy _].
    destruct (tie_head_nonempty y l2 Hy). by rewrite <- Hties.
  - destruct l2 as [|y l2].
    { inversion_clear Hk1 as [|? ? Hx _].
      destruct (tie_head_nonempty x l1 Hx). by rewrite Hties. }
    inversion_clear Hk1 as [|? ? Hx Hk1']. inversion_clear Hk2 as [|? ? Hy Hk2'].
    inversion_clear Hs1 as [|? ? Hs1' Hall1]. inversion_clear Hs2 as [|? ? Hs2' Hall2].
    pose proof (key_tie_refl x Hx) as Hxx. pose proof (key_tie_refl y Hy) as Hyy.
    assert (Hxy : key_tie key (key x) y = true).
    { destruct (key_tie key (key x) y) eqn:Hxy; [done|].
      pose proof (Hties (key x)) as Hx_in. cbn [List.filter] in Hx_in.
      rewrite Hxx, Hxy in Hx_in.
      assert (In x l2) as Hin2.
      { eapply proj1, List.filter_In. rewrite <- Hx_in. by left. }
      assert (key_tie key (key y) x = false) as Hyx.
      { unfold key_tie in *. by rewrite FloatOrder.eqb_sym. }
      pose proof (Hties (key y)) as Hy_in. cbn [List.filter] in Hy_in.
      rewrite Hyy, Hyx in Hy_in.
      assert (In y l1) as Hin1.
      { eapply proj1, List.filter_In. rewrite Hy_in. by left. }
      rewrite List.Forall_forall in Hall1, Hall2.
      pose proof (FloatOrder.leb_antisym _ _ (Hall2 _ Hin2) (Hall1 _ Hin1)) as Heq.
      unfold key_tie in Hxy. congruence. }
    pose proof (Hties (key x)) as Hhd. cbn [List.filter] in Hhd.
    rewrite Hxx, Hxy in Hhd.
    injection Hhd as -> _. f_equal. apply IH; try done.
    intros d. specialize (Hties d). cbn [List.filter] in Hties.
    destruct (key_tie key d y); congruence.
Qed.

(** Whatever stable sorting algorithm runs, its result is this one. *)
Lemma stable_sort_unique l l' :
  Forall (keyed key) l →
  l' ≡ₚ l → Sorted (key_le key) l' →
  (∀ d, List.filter (key_tie key d) l' = List.filter (key_tie key d) l) →
  l' = sort_by_key key l.
Proof.
  intros Hk Hperm Hsorted Hties.
  apply sorted_ties_unique.
  - by rewrite Hperm.
  - by rewrite sort_by_key_perm.
  - by apply Sorted_StronglySorted; [exact key_le_trans|].
  - apply Sorted_StronglySorted; [exact key_le_trans|]. by apply sort_by_key_sorted.
  - intros d. by rewrite sort_by_key_stable.
Qed.
End SortFacts.

(** ** Slices *)

Lemma slice_to_take {A} (l : list A) (stop : Z) :
  slice_to l stop = take (Z.to_nat (if stop <? 0 then Z.of_nat (length l) + stop else stop)) l.
Proof. unfold slice_to. by destruct (stop <? 0). Qed.

Lemma slice_to_length {A} (l : list A) (stop : Z) :
  Z.of_nat (length (slice_to l stop)) =
  if stop <? 0 then Z.max 0 (Z.of_nat (length l) + stop)
  else Z.min stop (Z.of_nat (length l)).
Proof.
  unfold slice_to. destruct (stop <? 0) eqn:Hneg; rewrite length_take; lia.
Qed.

Lemma Sorted_take {A} (R : A → A → Prop) (n : nat) (l : list A) :
  Sorted R l → Sorted R (take n l).
Proof.
  revert n. induction l as [|x l IH]; intros [|n] Hs; simpl; try constructor.
  - apply IH. by inversion Hs.
  - inversion_clear Hs as [|? ? _ Hhd].
    destruct l, n; simpl; constructor. by inversion Hhd.
Qed.

Lemma strongly_sorted_split {A} (R : A → A → Prop) (l1 l2 : list A) x y :
  StronglySorted R (l1 ++ l2) → x ∈ l1 → y ∈ l2 → R x y.
Proof.
  induction l1 as [|z l1 IH]; simpl; intros Hs Hx Hy; [by apply elem_of_nil in Hx|].
  inversion_clear Hs as [|? ? Hs' Hall]. apply elem_of_cons in Hx as [->|Hx].
  - rewrite Forall_forall in Hall. apply Hall, elem_of_app. by right.
  - by apply IH.
Qed.

Lemma filter_take_prefix {A} (f : A → bool) (n : nat) (l : list A) :
  List.filter f (take n l) `prefix_of` List.filter f l.
Proof.
  exists (List.filter f (drop n l)).
  by rewrite <- List.filter_app, take_drop.
Qed.

(** ** The nearest-airport query *)

Section NearestFacts.
Variable geodesic : float * float → float * float → result float.

Lemma distance_loop_ok (P : float → Prop) origin airports acc :
  Forall (λ a, ∃ d, geodesic origin (location a) = Ok d ∧ P d) airports →
  ∃ ds, distance_loop geodesic origin airports acc = Ok (acc ++ ds) ∧
        ds.*1 = airports ∧
        Forall (λ e, measured geodesic origin e ∧ P e.2) ds.
Proof.
  intros Hall. revert acc.
  induction Hall as [|a rest (d & Hd & HP) _ IH]; intros acc; simpl.
  - exists []. by rewrite app_nil_r.
  - destruct (location a) as [lat lon] eqn:Hloc. simpl. rewrite Hd. simpl.
    destruct (IH (acc ++ [(a, d)])) as (ds & Hloop & Hfst & Hds).
    exists ((a, d) :: ds). rewrite Hloop, <- app_assoc. simpl.
    split_and!; [done|by f_equal|].
    constructor; [|done]. unfold measured. simpl. by rewrite Hloc.
Qed.

Lemma distance_loop_raise origin airports acc e :
  distance_loop geodesic origin airports acc = Raise e →
  ∃ a, a ∈ airports ∧ geodesic origin (location a) = Raise e.
Proof.
  revert acc. induction airports as [|a rest IH]; intros acc; simpl; [done|].
  destruct (location a) as [lat lon] eqn:Hloc. simpl.
  destruct (geodesic origin (lat, lon)) as [d|e'] eqn:Hd; simpl.
  - intros (a' & Hin & Ha')%IH. exists a'. split; [by right|done].
  - intros [= ->]. exists a. split; [by left|]. by rewrite Hloc.
Qed.

Lemma is_ok_measured origin airports :
  Forall (λ a, is_ok (geodesic origin (location a)) = true) airports →
  Forall (λ a, ∃ d, geodesic origin (location a) = Ok d ∧ True) airports.
Proof.
  intros Hall. eapply Forall_impl; [exact Hall|]. intros a Ha. simpl in Ha.
  destruct (geodesic origin (location a)) as [d|]; [by exists d|done].
Qed.

(** The result is a prefix of the stable, ordered rearrangement of the
    measured dataset. *)
Lemma find_nearest_airports_ok (P : float → Prop) user_lat user_lon airports k :
  Forall (λ a, ∃ d, geodesic (user_lat, user_lon) (location a) = Ok d ∧ P d) airports →
  ∃ ds, find_nearest_airports geodesic user_lat user_lon airports k
          = Ok (slice_to (sort_by_key snd ds) k) ∧
        ds.*1 = airports ∧
        Forall (λ e, measured geodesic (user_lat, user_lon) e ∧ P e.2) ds.
Proof.
  intros Hall. unfold find_nearest_airports.
  destruct (distance_loop_ok P _ _ [] Hall) as (ds & -> & Hfst & Hds).
  by exists ds.
Qed.
End NearestFacts.

(** C1.  For every k >= 1 (indeed every k >= 0) and every dataset whose
    distances geopy computes, [find_nearest_airports] returns exactly
    min(k, datasetSize) entries, ordered by non-decreasing distance.  The
    entries are airports of the dataset, each paired with the distance geopy
    gives from the origin to it: what is returned and what is left out are
    together the dataset, each airport once, and nothing left out is nearer
    than an entry returned. *)
Theorem nearest_count_and_order
    (geodesic : float * float → float * float → result float)
    (user_lat user_lon : float) (airports : list airport) (k : Z) :
  0 ≤ k →
  Forall (λ a, ∃ d, geodesic (user_lat, user_lon) (location a) = Ok d ∧ not_nan d)
    airports →
  ∃ r rest,
    find_nearest_airports geodesic user_lat user_lon airports k = Ok r ∧
    Z.of_nat (length r) = Z.min k (Z.of_nat (length airports)) ∧
    Sorted le_distance r ∧
    Forall (measured geodesic (user_lat, user_lon)) (r ++ rest) ∧
    (r ++ rest).*1 ≡ₚ airports ∧
    ∀ x y, x ∈ r → y ∈ rest → le_distance x y.
Proof.
  intros Hk Hall.
  destruct (find_nearest_airports_ok geodesic not_nan _ _ _ k Hall)
    as (ds & Hfind & Hfst & Hds).
  assert (Sorted le_distance (sort_by_key snd ds)) as Hsorted.
  { apply (sort_by_key_sorted (A := airport * float) snd).
    eapply Forall_impl; [exact Hds|]. by intros e [_ He]. }
  rewrite slice_to_take in Hfind.
  assert (Z.of_nat (length (take (Z.to_nat k) (sort_by_key snd ds))) =
          Z.min k (Z.of_nat (length airports))) as Hlen.
  { rewrite length_take, sort_by_key_length, <- Hfst, length_fmap. lia. }
  assert ((k <? 0) = false) as Hneg by lia. rewrite Hneg in Hfind.
  exists (take (Z.to_nat k) (sort_by_key snd ds)),
         (drop (Z.to_nat k) (sort_by_key snd ds)).
  rewrite take_drop. split_and!; [done|done| | | |].
  - by apply Sorted_take.
  - rewrite sort_by_key_perm. eapply Forall_impl; [exact Hds|]. by intros e [He _].
  - by rewrite sort_by_key_perm, Hfst.
  - intros x y. apply strongly_sorted_split. rewrite take_drop.
    apply Sorted_StronglySorted; [exact (key_le_trans snd)|done].
Qed.

Lemma nearest_count_and_order_witness :
  ∃ r rest,
    find_nearest_airports Sample.plane_geodesic 40 (-73.1)
      [Sample.jfk; Sample.twin; Sample.lga; Sample.tst] 3 = Ok r ∧
    Z.of_nat (length r) = Z.min 3 4 ∧
    Sorted le_distance r ∧
    Forall (measured Sample.plane_geodesic (40, -73.1)%float) (r ++ rest) ∧
    (r ++ rest).*1 ≡ₚ [Sample.jfk; Sample.twin; Sample.lga; Sample.tst] ∧
    ∀ x y, x ∈ r → y ∈ rest → le_distance x y.
Proof.
  apply (nearest_count_and_order Sample.plane_geodesic 40 (-73.1)
           [Sample.jfk; Sample.twin; Sample.lga; Sample.tst] 3).
  - lia.
  - repeat constructor; eexists; split; reflexivity.
Defined.

Example nearest_three_of_four :
  find_nearest_airports Sample.plane_geodesic 40 (-73.1)
    [Sample.jfk; Sample.twin; Sample.lga; Sample.tst] 3
  = Ok [(Sample.tst, 11.119499999999368%float);
        (Sample.twin, 11.119500000000947%float);
        (Sample.jfk, 103.73064730594437%float)].
Proof. reflexivity. Qed.

(** C4 as stated fails: with k = 0 a valid query returns the empty list
    instead of failing, and with nothing to measure an origin outside the
    valid ranges is never looked at. *)
Lemma nearest_k_zero_returns :
  find_nearest_airports Sample.plane_geodesic 40 (-73.1) [Sample.tst] 0 = Ok [] ∧
  (¬ ∃ e, find_nearest_airports Sample.plane_geodesic 40 (-73.1) [Sample.tst] 0 = Raise e) ∧
  find_nearest_airports Sample.plane_geodesic 91 200 [] 5 = Ok [].
Proof. split; [reflexivity|]. split; [|reflexivity]. by intros [e He]. Qed.

(** C4, amended.  The query checks neither the origin nor k.  It fails only
    when geopy raises for an airport of the dataset, and then with geopy's
    exception; when every distance is computed it returns a list also for
    k <= 0: the empty list for k = 0, and max(0, datasetSize + k) entries
    for k < 0. *)
Theorem nearest_fails_only_through_geodesic
    (geodesic : float * float → float * float → result float)
    (user_lat user_lon : float) (airports : list airport) (k : Z) :
  (∀ e, find_nearest_airports geodesic user_lat user_lon airports k = Raise e →
        ∃ a, a ∈ airports ∧ geodesic (user_lat, user_lon) (location a) = Raise e) ∧
  (Forall (λ a, is_ok (geodesic (user_lat, user_lon) (location a)) = true) airports →
   k ≤ 0 →
   ∃ r, find_nearest_airports geodesic user_lat user_lon airports k = Ok r ∧
        Z.of_nat (length r) =
          if k =? 0 then 0 else Z.max 0 (Z.of_nat (length airports) + k)).
Proof.
  split.
  - intros e. unfold find_nearest_airports.
    destruct (distance_loop geodesic _ airports []) as [ds|e'] eqn:Hloop; [done|].
    intros [= ->]. by eapply distance_loop_raise.
  - intros Hall%is_ok_measured Hk.
    destruct (find_nearest_airports_ok geodesic _ _ _ _ k Hall)
      as (ds & Hfind & Hfst & _).
    eexists. split; [exact Hfind|].
    rewrite slice_to_length, sort_by_key_length, <- Hfst, length_fmap.
    destruct (Z.ltb_spec k 0), (Z.eqb_spec k 0); lia.
Qed.

Lemma nearest_fails_only_through_geodesic_witness :
  ∃ r, find_nearest_airports Sample.plane_geodesic 40 (-73.1)
         [Sample.jfk; Sample.twin; Sample.lga; Sample.tst] (-1) = Ok r ∧
       Z.of_nat (length r) = 3.
Proof.
  apply (nearest_fails_only_through_geodesic Sample.plane_geodesic 40 (-73.1)
           [Sample.jfk; Sample.twin; Sample.lga; Sample.tst] (-1)).
  - repeat constructor.
  - lia.
Defined.

(** C5.  The query is a function of the origin, k and the dataset, and
    airports at equal distance come out in their dataset order: for every
    distance d, the entries of the result at d are an initial part of the
    dataset's entries at d, in the same order.  As in C1, every distance is
    computed and none is NaN. *)
Theorem nearest_deterministic_ties
    (geodesic : float * float → float * float → result float)
    (user_lat user_lon : float) (airports : list airport) (k : Z) :
  Forall (λ a, ∃ d, geodesic (user_lat, user_lon) (location a) = Ok d ∧ not_nan d)
    airports →
  ∃ r ds,
    find_nearest_airports geodesic user_lat user_lon airports k = Ok r ∧
    (∀ r', find_nearest_airports geodesic user_lat user_lon airports k = Ok r' → r' = r) ∧
    ds.*1 = airports ∧
    Forall (measured geodesic (user_lat, user_lon)) ds ∧
    ∀ d, List.filter (tie d) r `prefix_of` List.filter (tie d) ds.
Proof.
  intros Hall.
  destruct (find_nearest_airports_ok geodesic not_nan _ _ _ k Hall)
    as (ds & Hfind & Hfst & Hds).
  eexists _, ds. split; [exact Hfind|]. split_and!; try done.
  - intros r'. rewrite Hfind. congruence.
  - eapply Forall_impl; [exact Hds|]. by intros e [He _].
  - intros d. rewrite slice_to_take. unfold tie.
    rewrite <- (sort_by_key_stable (A := airport * float) snd d ds).
    apply filter_take_prefix.
Qed.

Lemma nearest_deterministic_ties_witness :
  ∃ r ds,
    find_nearest_airports Sample.plane_geodesic 40 (-73.1)
      [Sample.jfk; Sample.heliport; Sample.lga; Sample.tst] 2 = Ok r ∧
    (∀ r', find_nearest_airports Sample.plane_geodesic 40 (-73.1)
             [Sample.jfk; Sample.heliport; Sample.lga; Sample.tst] 2 = Ok r' → r' = r) ∧
    ds.*1 = [Sample.jfk; Sample.heliport; Sample.lga; Sample.tst] ∧
    Forall (measured Sample.plane_geodesic (40, -73.1)%float) ds ∧
    ∀ d, List.filter (tie d) r `prefix_of` List.filter (tie d) ds.
Proof.
  apply (nearest_deterministic_ties Sample.plane_geodesic 40 (-73.1)
           [Sample.jfk; Sample.heliport; Sample.lga; Sample.tst] 2).
  repeat constructor; eexists; split; reflexivity.
Defined.

Example ties_keep_dataset_order :
  find_nearest_airports Sample.plane_geodesic 40 (-73.1)
    [Sample.jfk; Sample.heliport; Sample.lga; Sample.tst] 2
  = Ok [(Sample.heliport, 11.119499999999368%float);
        (Sample.tst, 11.119499999999368%float)].
Proof. reflexivity. Qed.

(** Whatever stable sort is used, the query can only return this list: an
    ordered rearrangement of the measured dataset that keeps ties in dataset
    order is the one [sort_by_key] builds. *)
Lemma nearest_independent_of_sort
    (geodesic : float * float → float * float → result float)
    (user_lat user_lon : float) (airports : list airport) (k : Z)
    (ds sorted : list (airport * float)) :
  distance_loop geodesic (user_lat, user_lon) airports [] = Ok ds →
  Forall (λ e, not_nan e.2) ds →
  sorted ≡ₚ ds → Sorted le_distance sorted →
  (∀ d, List.filter (tie d) sorted = List.filter (tie d) ds) →
  find_nearest_airports geodesic user_lat user_lon airports k = Ok (slice_to sorted k).
Proof.
  intros Hloop Hnan Hperm Hsorted Hties.
  unfold find_nearest_airports. rewrite Hloop. simpl.
  f_equal. f_equal.
  symmetry. by apply (stable_sort_unique (A := airport * float) snd ds sorted).
Qed.

(** The end-to-end scenario, as far as the script decides it: on the dataset
    with the single airport TST the query returns exactly one entry, TST,
    with the distance geopy gives for the two points. *)
Lemma nearest_single_tst
    (geodesic : float * float → float * float → result float) (d : float) :
  geodesic (40.0, -73.1)%float (40.0, -73.0)%float = Ok d →
  find_nearest_airports geodesic 40.0 (-73.1) [Sample.tst] 5 = Ok [(Sample.tst, d)].
Proof. intros Hd. unfold find_nearest_airports. simpl. by rewrite Hd. Qed.

(** C6.  With the haversine distance of the specification, the query on the
    dataset [Test Airfield, TST, (40.0, -73.0)] from (40.0, -73.1) with
    k = 5 returns exactly one entry, TST, at 8.518 km: within 0.05 km of
    8.5. *)
Theorem single_airfield_scenario :
  ∃ d, find_nearest_airports great_circle 40.0 (-73.1)
         [Airport "Test Airfield" "TST" (40.0, -73.0)%float] 5
       = Ok [(Airport "Test Airfield" "TST" (40.0, -73.0)%float, d)] ∧
       d = haversine_km (40.0, -73.1)%float (40.0, -73.0)%float ∧
       (8.45 <=? d)%float = true ∧ (d <=? 8.55)%float = true.
Proof.
  exists (haversine_km (40.0, -73.1)%float (40.0, -73.0)%float).
  split; [by apply (nearest_single_tst great_circle)|].
  split; [done|]. by vm_compute.
Qed.

Example haversine_of_the_scenario :
  haversine_km (40.0, -73.1)%float (40.0, -73.0)%float = 8.5180251192065892%float.
Proof. reflexivity. Qed.

(** ** Running the steps of a cycle *)

Ltac unfold_M :=
  unfold update, logged, HUD.update_telemetry, HUD.update_weather,
    HUD.update_airports, get_weather_data, try_except, root_after, print, elapse,
    set_telemetry_label, set_weather_label, set_airport_label, raise, lift,
    mbind, M_bind, mret, M_ret in *.

(** The telemetry step never raises and touches only its own label and the
    clock. *)
Lemma update_telemetry_frame w s :
  ∃ t, HUD.update_telemetry w s =
         (Ok tt, App t (weather_label s) (airport_label s) (stdout s)
                   (now s + Z.of_N (w_telemetry_ms w)) (after_queue s) (spans s)) ∧
       t = match HUD.get_telemetry_data (w_vehicle w) with
           | Ok telemetry_data => telemetry_text telemetry_data
           | Raise e => [Lit "Error fetching telemetry: "; Lit (exn_str e)]
           end.
Proof.
  unfold_M. simpl.
  destruct (HUD.get_telemetry_data (w_vehicle w)); simpl; eauto.
Qed.

(** The weather step changes its label only when it returns, and neither
    the other labels nor the timers in any case. *)
Lemma update_weather_frame w lat lon s :
  ∃ r t out,
    HUD.update_weather w lat lon s =
      (r, App (telemetry_label s) t (airport_label s) out
            (now s + Z.of_N (w_weather_ms w)) (after_queue s) (spans s)) ∧
    (is_ok r = false → t = weather_label s).
Proof.
  unfold_M. simpl.
  destruct (w_weather_api w lat lon) as [[status body]|e]; simpl;
    [|by eexists _, _, _].
  destruct (status =? 200); simpl.
  - destruct body as [weather_data|e]; simpl; [|by eexists _, _, _].
    destruct (truthy weather_data); simpl; [|by eexists _, _, _].
    destruct (py_get weather_data _ _) as [current_weather|e]; simpl;
      [|by eexists _, _, _].
    destruct (py_get current_weather "temperature" _) as [celsius|e]; simpl;
      [|by eexists _, _, _].
    destruct (fahrenheit_of celsius) as [fahrenheit|e]; simpl; [|by eexists _, _, _].
    destruct (py_get current_weather "windspeed" _) as [wind_speed|e]; simpl;
      by eexists _, _, _.
  - by eexists _, _, _.
Qed.

(** What the weather step returns and shows does not depend on the state it
    starts from. *)
Lemma update_weather_indep w lat lon s1 s2 :
  (HUD.update_weather w lat lon s1).1 = (HUD.update_weather w lat lon s2).1 ∧
  (is_ok (HUD.update_weather w lat lon s1).1 = true →
   weather_label (HUD.update_weather w lat lon s1).2 =
   weather_label (HUD.update_weather w lat lon s2).2).
Proof.
  unfold_M. simpl.
  destruct (w_weather_api w lat lon) as [[status body]|e]; simpl; [|done].
  destruct (status =? 200); simpl; [|done].
  destruct body as [weather_data|e]; simpl; [|done].
  destruct (truthy weather_data); simpl; [|done].
  destruct (py_get weather_data _ _) as [current_weather|e]; simpl; [|done].
  destruct (py_get current_weather "temperature" _) as [celsius|e]; simpl; [|done].
  destruct (fahrenheit_of celsius) as [fahrenheit|e]; simpl; [|done].
  by destruct (py_get current_weather "windspeed" _) as [wind_speed|e].
Qed.

Section EngineFacts.
Variable geodesic : float * float → float * float → result float.
Variables (user_lat user_lon : float) (airports : list airport).

Lemma update_airports_frame w s :
  ∃ r t,
    HUD.update_airports geodesic w user_lat user_lon airports s =
      (r, App (telemetry_label s) (weather_label s) t (stdout s)
            (now s + Z.of_N (w_airports_ms w)) (after_queue s) (spans s)) ∧
    (is_ok r = false → t = airport_label s).
Proof.
  unfold_M. simpl.
  destruct (find_nearest_airports _ _ _ _ _); simpl; by eexists _, _.
Qed.

Lemma update_airports_indep w s1 s2 :
  (HUD.update_airports geodesic w user_lat user_lon airports s1).1 =
  (HUD.update_airports geodesic w user_lat user_lon airports s2).1 ∧
  (is_ok (HUD.update_airports geodesic w user_lat user_lon airports s1).1 = true →
   airport_label (HUD.update_airports geodesic w user_lat user_lon airports s1).2 =
   airport_label (HUD.update_airports geodesic w user_lat user_lon airports s2).2).
Proof.
  unfold_M. simpl.
  by destruct (find_nearest_airports _ _ _ _ _).
Qed.

(** One execution of [update], step by step. *)
Lemma update_unfold w s :
  update geodesic user_lat user_lon airports w s =
  logged
    (λ s0,
       match HUD.update_telemetry w s0 with
       | (_, s1) =>
           match HUD.update_weather w user_lat user_lon s1 with
           | (Ok _, s2) =>
               match HUD.update_airports geodesic w user_lat user_lon airports s2 with
               | (Ok _, s3) => root_after 5000 s3
               | (Raise e, s3) => (Raise e, s3)
               end
           | (Raise e, s2) => (Raise e, s2)
           end
       end) s.
Proof.
  unfold update, logged, mbind, M_bind.
  destruct (update_telemetry_frame w s) as (t & -> & _).
  by destruct (HUD.update_weather w user_lat user_lon _) as [[[]|] ?].
Qed.
End EngineFacts.



(** A weather reply with a status other than 200 is contained: the label
    shows the failure text and the step returns. *)
Lemma weather_status_failure_is_contained w lat lon s status body :
  w_weather_api w lat lon = Ok (Response status body) →
  status ≠ 200 →
  ∃ s', HUD.update_weather w lat lon s = (Ok tt, s') ∧
        weather_label s' = [Lit "Failed to retrieve weather data."] ∧
        airport_label s' = airport_label s ∧ after_queue s' = after_queue s.
Proof.
  intros Hreply Hstatus. unfold_M. simpl. rewrite Hreply. simpl.
  destruct (Z.eqb_spec status 200); [done|]. simpl. by eexists.
Qed.

(** An exception of [requests.get] is not: it leaves [update] before the
    airport step and before the next cycle is scheduled. *)
Lemma weather_transport_error_escapes
    (geodesic : float * float → float * float → result float)
    (user_lat user_lon : float) (airports : list airport) (w : world) (s : app) (e : exn) :
  w_weather_api w user_lat user_lon = Raise e →
  ∃ s', update geodesic user_lat user_lon airports w s = (Raise e, s') ∧
        weather_label s' = weather_label s ∧
        airport_label s' = airport_label s ∧
        after_queue s' = after_queue s.
Proof.
  intros Hreply. rewrite update_unfold. unfold logged.
  destruct (update_telemetry_frame w s) as (t & -> & _).
  unfold HUD.update_weather, get_weather_data, elapse, lift, mbind, M_bind.
  simpl. rewrite Hreply. simpl. by eexists.
Qed.

(** After a reply with a status other than 200 the cycle goes on: the
    airport label is filled and the next cycle is scheduled. *)
Lemma weather_status_failure_is_isolated
    (geodesic : float * float → float * float → result float)
    (user_lat user_lon : float) (airports : list airport)
    (w : world) (s sa : app) (status : Z) (body : result pyval) :
  w_weather_api w user_lat user_lon = Ok (Response status body) →
  status ≠ 200 →
  HUD.update_airports geodesic w user_lat user_lon airports s = (Ok tt, sa) →
  ∃ s', update geodesic user_lat user_lon airports w s = (Ok tt, s') ∧
        weather_label s' = [Lit "Failed to retrieve weather data."] ∧
        airport_label s' = airport_label sa ∧
        after_queue s' = enqueue (now s' + 5000) (after_queue s).
Proof.
  intros Hreply Hstatus Hairports.
  rewrite update_unfold. unfold logged.
  destruct (update_telemetry_frame w s) as (t & -> & _).
  set (s1 := App _ _ _ _ _ _ _).
  destruct (weather_status_failure_is_contained w user_lat user_lon s1 status body)
    as (s2 & Hw & Hlabel & Hkept & Hqueue); [done..|].
  rewrite Hw.
  destruct (update_airports_indep geodesic user_lat user_lon airports w s2 s) as [Hr Hl].
  destruct (update_airports_frame geodesic user_lat user_lon airports w s2)
    as (r & ta & Ha & _).
  rewrite Ha, Hairports in Hr, Hl. simpl in Hr, Hl. subst r.
  rewrite Ha. simpl. eexists. split; [done|]. simpl.
  split_and!; [done|by apply Hl|by rewrite Hqueue].
Qed.

Example server_error_is_shown :
  let w := World Sample.flying Sample.server_error 40 350 900 0 in
  let r := update Sample.plane_geodesic 40 (-73.1) [Sample.tst] w (boot 0) in
  r.1 = Ok tt ∧
  weather_label r.2 = [Lit "Failed to retrieve weather data."] ∧
  stdout r.2 = [[Lit "Failed to retrieve weather data: "; Str (PyInt 500)]] ∧
  airport_label r.2 =
    Lit ("Nearest Airports:" +:+ LF) :: airport_line (Sample.tst, 11.119499999999368%float) ∧
  after_queue r.2 = [6290].
Proof. by vm_compute. Qed.

(** C3, at a failing input.  With the weather host unreachable, [update]
    raises the ConnectionError: the weather label shows no failure text, the
    airport label is not filled and no next cycle is scheduled.  Run from
    the main block, a first cycle that fails this way ends the program
    before the main loop, and a later one is the last cycle there is. *)
Theorem weather_exception_aborts_cycle :
  let unreachable := Exn "ConnectionError" "Max retries exceeded with url: /v1/forecast" in
  let r := update Sample.plane_geodesic 40 (-73.1) [Sample.jfk; Sample.tst]
             Sample.weather_down (boot 0) in
  let first := main Sample.plane_geodesic Sample.here Sample.weather_down
                 [Sample.calm; Sample.calm] (boot 0) in
  let later := main Sample.plane_geodesic Sample.here Sample.calm
                 [Sample.weather_down; Sample.calm; Sample.calm] (boot 0) in
  r.1 = Raise unreachable ∧
  weather_label r.2 = [] ∧ airport_label r.2 = [] ∧ after_queue r.2 = [] ∧
  last (stdout first.2) = Some [Lit "Error: "; Lit (exn_str unreachable)] ∧
  length (spans first.2) = 1%nat ∧
  length (spans later.2) = 2%nat ∧ after_queue later.2 = [].
Proof. vm_compute. by repeat split. Qed.


(** What [update_weather] does with a status-200 reply whose body is a
    non-empty object with [current_weather] absent or an object: the label
    is set when the Fahrenheit conversion returns, and the exception of the
    conversion leaves the step with the label untouched. *)
Lemma update_weather_on_object w lat lon s d cw :
  w_weather_api w lat lon = Ok (Response 200 (Ok (PyDict d))) →
  d ≠ ∅ →
  py_get (PyDict d) "current_weather" (PyDict ∅) = Ok (PyDict cw) →
  let celsius := default (PyStr "N/A") (cw !! "temperature") in
  let wind_speed := default (PyStr "N/A") (cw !! "windspeed") in
  HUD.update_weather w lat lon s =
    match fahrenheit_of celsius with
    | Ok fahrenheit =>
        (Ok tt, App (telemetry_label s) (weather_text celsius fahrenheit wind_speed)
                  (airport_label s) (stdout s) (now s + Z.of_N (w_weather_ms w))
                  (after_queue s) (spans s))
    | Raise e =>
        (Raise e, App (telemetry_label s) (weather_label s) (airport_label s)
                    (stdout s) (now s + Z.of_N (w_weather_ms w))
                    (after_queue s) (spans s))
    end.
Proof.
  intros Hreply Hd Hcw celsius wind_speed.
  assert (truthy (PyDict d) = true) as Htruthy.
  { simpl. destruct (Nat.eqb_spec (size d) 0) as [Hsize|]; [|done].
    by apply map_size_empty_iff in Hsize. }
  unfold HUD.update_weather, get_weather_data, elapse, lift, set_weather_label,
    mbind, M_bind.
  simpl in *. rewrite Hreply. simpl. rewrite Htruthy.
  injection Hcw as ->. simpl. fold celsius.
  by destruct (fahrenheit_of celsius).
Qed.

(** The int case of the conversion, run on every temperature from -1000 to
    1000: the result is the float of [z * 9], divided by 5 as floats are,
    plus 32. *)
Lemma fahrenheit_of_small_int (z : Z) :
  0 ≤ z ≤ 1000 →
  fahrenheit_of (PyInt z)
    = Ok (PyFloat (of_uint63 (Uint63.of_Z (z * 9)) / 5 + 32)%float) ∧
  fahrenheit_of (PyInt (- z))
    = Ok (PyFloat ((- of_uint63 (Uint63.of_Z (z * 9))) / 5 + 32)%float).
Proof.
  intros Hz.
  pose (same := λ (r : result pyval) (f : float),
          match r with Ok (PyFloat g) => Leibniz.eqb g f | _ => false end).
  assert (∀ r f, same r f = true → r = Ok (PyFloat f)) as Hsame.
  { intros r f. destruct r as [[| | |g| | |]|]; simpl; try done.
    by intros ->%FloatAxioms.Leibniz.eqb_spec. }
  pose (agree := λ n : nat,
          same (fahrenheit_of (PyInt (Z.of_nat n)))
            (of_uint63 (Uint63.of_Z (Z.of_nat n * 9)) / 5 + 32)%float &&
          same (fahrenheit_of (PyInt (- Z.of_nat n)))
            ((- of_uint63 (Uint63.of_Z (Z.of_nat n * 9))) / 5 + 32)%float).
  assert (forallb agree (seq 0 1001) = true) as Hall by (vm_compute; reflexivity).
  rewrite forallb_forall in Hall.
  specialize (Hall (Z.to_nat z)). rewrite in_seq in Hall.
  destruct (andb_prop _ _ (Hall ltac:(lia))) as [Hpos Hneg].
  rewrite Z2Nat.id in Hpos, Hneg by lia.
  split; by apply Hsame.
Qed.

(** The conversion raises only the overflow of the int division, and only
    for an int temperature outside -1000 .. 1000. *)
Lemma fahrenheit_of_raises celsius e :
  fahrenheit_of celsius = Raise e →
  e = Exn "OverflowError" "integer division result too large for a float" ∧
  ∃ z, celsius = PyInt z ∧ ¬ (-1000 ≤ z ≤ 1000).
Proof.
  destruct celsius as [|[]|z|f|?|?|?]; try done. intros Hraise. split.
  - unfold fahrenheit_of, py_mul, py_truediv, int_truediv in Hraise. simpl in Hraise.
    destruct (is_infinity _); simpl in Hraise; [|done]. by injection Hraise as <-.
  - exists z. split; [done|]. intros Hz.
    destruct (Z.le_ge_cases 0 z).
    + destruct (fahrenheit_of_small_int z) as [Hok _]; [lia|]. congruence.
    + destruct (fahrenheit_of_small_int (- z)) as [_ Hok]; [lia|].
      rewrite Z.opp_involutive in Hok. congruence.
Qed.





Example fahrenheit_of_20 : fahrenheit_of (PyInt 20) = Ok (PyFloat 68).
Proof. reflexivity. Qed.

Example fahrenheit_of_minus_40 : fahrenheit_of (PyFloat (-40)) = Ok (PyFloat (-40)).
Proof. reflexivity. Qed.

Example fahrenheit_of_none : fahrenheit_of PyNone = Ok (PyStr "N/A").
Proof. reflexivity. Qed.

(** ** Startup *)

Lemma location_known_spec (user_lat user_lon : option float) :
  location_known user_lat user_lon = true ↔
  ∃ lat lon, user_lat = Some lat ∧ user_lon = Some lon ∧
             (lat =? 0)%float = false ∧ (lon =? 0)%float = false.
Proof.
  unfold location_known, truthy_float. split.
  - destruct user_lat as [lat|], user_lon as [lon|]; try done.
    intros [Hlat Hlon]%andb_prop. exists lat, lon.
    by rewrite negb_true_iff in Hlat, Hlon.
  - intros (lat & lon & -> & -> & -> & ->). done.
Qed.

(** When the location cannot be resolved the engine does not start. *)
Lemma unresolved_location_blocks_startup geodesic env first later t0 e :
  ipinfo env = Raise e →
  cycling (main geodesic env first later (boot t0)).2 = false.
Proof.
  intros Hloc. unfold main, get_user_location, try_except, lift, raise, print,
    mbind, M_bind, mret, M_ret.
  simpl. rewrite Hloc. by destruct (read_csv env), (open_window env).
Qed.

(** With the dataset loaded, the window built, the vehicle connected and
    both coordinates different from zero, the first cycle runs. *)
Lemma resolved_location_starts geodesic env first later t0 airports lat lon :
  read_csv env = Ok airports → open_window env = Ok tt → connect env = Ok tt →
  ipinfo env = Ok (lat, lon) →
  (lat =? 0)%float = false → (lon =? 0)%float = false →
  cycling (main geodesic env first later (boot t0)).2 = true.
Proof.
  intros Hcsv Hwindow Hconnect Hloc Hlat Hlon.
  assert (∀ w s, cycling (update geodesic lat lon airports w s).2 = true) as Hfirst.
  { intros w s. unfold update, logged, cycling.
    match goal with |- context [let (_, _) := ?x in _] => destruct x as [r s'] end.
    simpl. rewrite length_app. simpl. by rewrite Nat.add_1_r. }
  assert (∀ l s, cycling s = true →
                 cycling (run_timers geodesic lat lon airports l s) = true) as Hloop.
  { induction l as [|w l IH]; intros s Hs; simpl; [done|].
    destruct (after_queue s); [done|]. apply IH, Hfirst. }
  unfold main, get_user_location, try_except, lift, raise, print, mainloop,
    mbind at 1 2 3 4 5 6 7, M_bind, mret, M_ret.
  simpl. rewrite Hcsv. simpl. rewrite Hwindow. simpl. rewrite Hloc. simpl.
  unfold truthy_float. rewrite Hlat, Hlon. simpl.
  rewrite Hconnect. simpl.
  match goal with |- context [update ?g ?a ?b ?c ?w ?s] =>
    pose proof (Hfirst w s) as Hran; destruct (update g a b c w s) as [[[]|e] s1] end;
    simpl in *.
  - by apply Hloop.
  - done.
Qed.

(** A resolved location with a zero latitude or longitude is taken for an
    unresolved one. *)
Lemma zero_coordinate_never_starts geodesic env first later t0 lat lon :
  ipinfo env = Ok (lat, lon) →
  (lat =? 0)%float = true ∨ (lon =? 0)%float = true →
  cycling (main geodesic env first later (boot t0)).2 = false.
Proof.
  intros Hloc Hzero.
  assert (truthy_float lat && truthy_float lon = false) as Hknown.
  { unfold truthy_float. destruct Hzero as [-> | ->]; [done|].
    by rewrite andb_false_r. }
  unfold main, get_user_location, try_except, raise, lift, print,
    mbind at 1 2 3 4 5 6 7, M_bind, mret, M_ret.
  simpl. rewrite Hloc. destruct (read_csv env); simpl; [|done].
  destruct (open_window env); simpl; [|done].
  by rewrite Hknown.
Qed.

Example offline_does_not_start :
  let r := main Sample.plane_geodesic Sample.offline Sample.calm [Sample.calm] (boot 0) in
  stdout r.2 = [[Lit "Failed to retrieve location: "; Lit "Max retries exceeded"];
                [Lit "Error: "; Lit "Unable to determine user's location."]] ∧
  cycling r.2 = false.
Proof. by vm_compute. Qed.

Example headless_does_not_start :
  let r := main Sample.plane_geodesic Sample.headless Sample.calm [Sample.calm] (boot 0) in
  stdout r.2 = [[Lit "Error: ";
                 Lit "no display name and no $DISPLAY environment variable"]] ∧
  cycling r.2 = false.
Proof. by vm_compute. Qed.

(** C7, at a failing input.  The location provider answers (0.0, 10.0), a
    point on the equator; [if user_lat and user_lon] takes the zero latitude
    for a missing one and the engine does not start. *)
Theorem zero_coordinate_blocks_startup :
  let r := main Sample.plane_geodesic Sample.on_equator Sample.calm [Sample.calm] (boot 0) in
  ipinfo Sample.on_equator = Ok (0.0, 10.0)%float ∧
  r.1 = Ok tt ∧
  stdout r.2 = [[Lit "Error: "; Lit "Unable to determine user's location."]] ∧
  cycling r.2 = false.
Proof. vm_compute. by repeat split. Qed.

(** ** The cadence of the cycles *)

Lemma separated_snoc l entered exited :
  separated l →
  match last l with Some (_, b) => b + 5000 ≤ entered | None => True end →
  entered ≤ exited →
  separated (l ++ [(entered, exited)]).
Proof.
  intros Hsep Hlast Hle. induction l as [|[a b] l IH]; simpl in *; [done|].
  destruct Hsep as (Hab & Hnext & Hsep). destruct l as [|[c d] l]; simpl in *.
  - by repeat split.
  - split; [done|]. split; [done|]. by apply IH.
Qed.

Lemma update_timing geodesic user_lat user_lon airports w s :
  ∃ r s', update geodesic user_lat user_lon airports w s = (r, s') ∧
          now s ≤ now s' ∧
          spans s' = spans s ++ [(now s, now s')] ∧
          (after_queue s' = after_queue s ∨
           after_queue s' = enqueue (now s' + 5000) (after_queue s)).
Proof.
  rewrite update_unfold. unfold logged.
  destruct (update_telemetry_frame w s) as (t & -> & _).
  set (s1 := App _ _ _ _ _ _ _).
  destruct (update_weather_frame w user_lat user_lon s1) as (r2 & t2 & out & -> & _).
  set (s2 := App _ _ _ _ _ _ _).
  destruct (update_airports_frame geodesic user_lat user_lon airports w s2)
    as (r3 & t3 & -> & _).
  destruct r2 as [[]|e2]; [destruct r3 as [[]|e3]|]; simpl;
    eexists _, _; (split; [reflexivity|]); simpl; split_and!; try lia; auto.
Qed.

(** An execution entered with no timer pending, late enough after the one
    before it, leaves the state paced. *)
Lemma update_paced geodesic user_lat user_lon airports w s :
  separated (spans s) →
  match last (spans s) with Some (_, b) => b + 5000 ≤ now s | None => True end →
  after_queue s = [] →
  paced (update geodesic user_lat user_lon airports w s).2.
Proof.
  intros Hsep Hlast Hqueue.
  destruct (update_timing geodesic user_lat user_lon airports w s)
    as (r & s' & -> & Hnow & Hspans & Hafter).
  unfold paced. simpl. rewrite Hspans, last_snoc, Hqueue in *. split.
  - by apply separated_snoc.
  - split; [done|]. simpl in Hafter. destruct Hafter; auto.
Qed.

Lemma run_timers_paced geodesic user_lat user_lon airports later s :
  paced s → paced (run_timers geodesic user_lat user_lon airports later s).
Proof.
  revert s. induction later as [|w later IH]; intros s Hs; simpl; [done|].
  destruct (after_queue s) as [|due pending] eqn:Hqueue; [done|].
  apply IH. destruct Hs as [Hsep Hlast]. rewrite Hqueue in Hlast.
  destruct (last (spans s)) as [[a b]|] eqn:Hspan; [|done].
  destruct Hlast as [Hb [[=]|[= -> ->]]].
  apply update_paced; simpl; [done| |done].
  rewrite Hspan. lia.
Qed.

Lemma main_paced geodesic env first later t0 :
  paced (main geodesic env first later (boot t0)).2.
Proof.
  assert (∀ out, paced (App [] [] [] out t0 [] [])) as Hidle by done.
  unfold main, get_user_location, try_except, raise, lift, print, mainloop,
    mbind at 1 2 3 4 5 6 7, M_bind, mret, M_ret.
  simpl. destruct (read_csv env) as [airports|e]; simpl; [|by apply Hidle].
  destruct (open_window env) as [[]|e]; simpl; [|by apply Hidle].
  destruct (ipinfo env) as [[lat lon]|e]; simpl; [|by apply Hidle].
  destruct (truthy_float lat && truthy_float lon); simpl; [|by apply Hidle].
  destruct (connect env) as [[]|e]; simpl; [|by apply Hidle].
  match goal with |- context [update ?g ?a ?b ?c ?w ?s] =>
    pose proof (update_paced g a b c w s) as Hfirst;
    destruct (update g a b c w s) as [[[]|e] s1] end; simpl in *.
  - apply run_timers_paced. by apply Hfirst.
  - by destruct Hfirst as [Hsep Hlast].
Qed.

(** C9.  In every run the executions of [update] follow one another: each
    is entered at least 5000 ms after the one before it was left, at most
    one timer is ever pending, and it is due exactly 5000 ms after the last
    execution was left. *)
Theorem cycles_never_overlap
    (geodesic : float * float → float * float → result float)
    (env : startup) (first : world) (later : list world) (t0 : Z) :
  let s := (main geodesic env first later (boot t0)).2 in
  separated (spans s) ∧
  (length (after_queue s) ≤ 1)%nat ∧
  ∀ entered exited, last (spans s) = Some (entered, exited) →
                    Forall (λ due, due = exited + 5000) (after_queue s).
Proof.
  intros s. destruct (main_paced geodesic env first later t0) as [Hsep Hlast].
  fold s in Hsep, Hlast. split; [done|].
  destruct (last (spans s)) as [[a b]|].
  - destruct Hlast as [_ [->| ->]]; split; simpl; try lia.
    + by intros.
    + intros ? ? [= _ <-]. by repeat constructor.
  - rewrite Hlast. split; [simpl; lia|done].
Qed.

Example four_cycles :
  spans (main Sample.plane_geodesic Sample.here Sample.calm
           [Sample.telemetry_down; Sample.calm; Sample.calm] (boot 1000)).2
  = [(1000, 2290); (7290, 10540); (15543, 16833); (21836, 23126)].
Proof. reflexivity. Qed.

(** * Further properties of the script *)

(** ** The nearest-airport query *)

Lemma distance_loop_app
    (geodesic : float * float → float * float → result float)
    origin (pre post : list airport) acc :
  distance_loop geodesic origin (pre ++ post) acc =
  acc' ← distance_loop geodesic origin pre acc; distance_loop geodesic origin post acc'.
Proof.
  revert acc. induction pre as [|a pre IH]; intros acc; simpl; [done|].
  destruct (geodesic origin _) as [d|e]; simpl; [apply IH|done].
Qed.

Lemma distance_loop_inv
    (geodesic : float * float → float * float → result float)
    origin airports acc r :
  distance_loop geodesic origin airports acc = Ok r →
  ∃ ds, r = acc ++ ds ∧ ds.*1 = airports ∧ Forall (measured geodesic origin) ds.
Proof.
  revert acc. induction airports as [|a rest IH]; intros acc; simpl.
  - intros [= <-]. exists []. by rewrite app_nil_r.
  - destruct (location a) as [lat lon] eqn:Hloc. simpl.
    destruct (geodesic origin (lat, lon)) as [d|e] eqn:Hd; simpl; [|done].
    intros (ds & -> & Hfst & Hds)%IH. exists ((a, d) :: ds).
    rewrite <- app_assoc. split_and!; [done|by simpl; f_equal|].
    constructor; [|done]. unfold measured. simpl. by rewrite Hloc.
Qed.

Lemma distance_loop_measured
    (geodesic : float * float → float * float → result float)
    origin (ds : list (airport * float)) acc :
  Forall (measured geodesic origin) ds →
  distance_loop geodesic origin ds.*1 acc = Ok (acc ++ ds).
Proof.
  intros Hds. revert acc.
  induction Hds as [|[a d] ds Ha _ IH]; intros acc; simpl.
  - by rewrite app_nil_r.
  - unfold measured in Ha. simpl in Ha. destruct (location a) as [lat lon].
    simpl. rewrite Ha. simpl. by rewrite IH, <- app_assoc.
Qed.

(** X1.  The query returns the nearest airports: what it returns and what it
    leaves out are together the measured dataset, and no airport left out is
    nearer than one returned. *)
Theorem nearest_are_closest
    (geodesic : float * float → float * float → result float)
    (user_lat user_lon : float) (airports : list airport) (k : Z) :
  Forall (λ a, ∃ d, geodesic (user_lat, user_lon) (location a) = Ok d ∧ not_nan d)
    airports →
  ∃ r rest,
    find_nearest_airports geodesic user_lat user_lon airports k = Ok r ∧
    (r ++ rest).*1 ≡ₚ airports ∧
    Forall (measured geodesic (user_lat, user_lon)) (r ++ rest) ∧
    ∀ x y, x ∈ r → y ∈ rest → le_distance x y.
Proof.
  intros Hall.
  destruct (find_nearest_airports_ok geodesic not_nan _ _ _ k Hall)
    as (ds & Hfind & Hfst & Hds).
  rewrite slice_to_take in Hfind. set (n := Z.to_nat _) in Hfind.
  exists (take n (sort_by_key snd ds)), (drop n (sort_by_key snd ds)).
  rewrite take_drop. split_and!; [done| | |].
  - by rewrite sort_by_key_perm, Hfst.
  - rewrite sort_by_key_perm. eapply Forall_impl; [exact Hds|]. by intros e [He _].
  - intros x y. apply strongly_sorted_split. rewrite take_drop.
    apply Sorted_StronglySorted; [exact (key_le_trans snd)|].
    apply (sort_by_key_sorted (A := airport * float) snd).
    eapply Forall_impl; [exact Hds|]. by intros e [_ He].
Qed.

Lemma nearest_are_closest_witness :
  ∃ r rest,
    find_nearest_airports Sample.plane_geodesic 40 (-73.1)
      [Sample.jfk; Sample.twin; Sample.lga; Sample.tst] 2 = Ok r ∧
    (r ++ rest).*1 ≡ₚ [Sample.jfk; Sample.twin; Sample.lga; Sample.tst] ∧
    Forall (measured Sample.plane_geodesic (40, -73.1)%float) (r ++ rest) ∧
    ∀ x y, x ∈ r → y ∈ rest → le_distance x y.
Proof.
  apply (nearest_are_closest Sample.plane_geodesic 40 (-73.1)
           [Sample.jfk; Sample.twin; Sample.lga; Sample.tst] 2).
  repeat constructor; eexists; split; reflexivity.
Defined.

(** X2.  All distances are computed before anything is returned: when geopy
    rejects an airport, the query raises the exception of the first such
    airport in dataset order, whatever k is. *)
Theorem nearest_first_failure
    (geodesic : float * float → float * float → result float)
    (user_lat user_lon : float) (pre post : list airport) (a : airport) (k : Z) (e : exn) :
  Forall (λ b, is_ok (geodesic (user_lat, user_lon) (location b)) = true) pre →
  geodesic (user_lat, user_lon) (location a) = Raise e →
  find_nearest_airports geodesic user_lat user_lon (pre ++ a :: post) k = Raise e.
Proof.
  intros Hpre%is_ok_measured Ha. unfold find_nearest_airports.
  rewrite distance_loop_app.
  destruct (distance_loop_ok geodesic _ _ _ [] Hpre) as (ds & -> & _). simpl.
  destruct (location a) as [lat lon]. simpl. by rewrite Ha.
Qed.

Lemma nearest_first_failure_witness :
  find_nearest_airports Sample.plane_geodesic 40 (-73.1)
    ([Sample.jfk; Sample.tst] ++ Fixture.polar :: [Sample.lga]) 0
  = Raise (Exn "ValueError" "Latitude must be in the [-90; 90] range.").
Proof.
  apply (nearest_first_failure Sample.plane_geodesic 40 (-73.1)
           [Sample.jfk; Sample.tst] [Sample.lga] Fixture.polar 0).
  - repeat constructor.
  - reflexivity.
Defined.

(** X3.  Asking for more airports only extends the answer: for
    0 <= k <= k', the result for k is the beginning of the result for k'. *)
Theorem nearest_monotone_in_k
    (geodesic : float * float → float * float → result float)
    (user_lat user_lon : float) (airports : list airport) (k k' : Z)
    (r : list (airport * float)) :
  0 ≤ k → k ≤ k' →
  find_nearest_airports geodesic user_lat user_lon airports k = Ok r →
  ∃ r', find_nearest_airports geodesic user_lat user_lon airports k' = Ok r' ∧
        r `prefix_of` r'.
Proof.
  intros Hk Hk'. unfold find_nearest_airports.
  destruct (distance_loop geodesic _ airports []) as [ds|]; simpl; [|done].
  intros [= <-]. eexists. split; [done|].
  rewrite !slice_to_take.
  destruct (Z.ltb_spec k 0), (Z.ltb_spec k' 0); try lia.
  exists (take (Z.to_nat k' - Z.to_nat k) (drop (Z.to_nat k) (sort_by_key snd ds))).
  rewrite take_take_drop. f_equal. lia.
Qed.

Lemma nearest_monotone_in_k_witness :
  ∃ r', find_nearest_airports Sample.plane_geodesic 40 (-73.1)
          [Sample.jfk; Sample.twin; Sample.lga; Sample.tst] 3 = Ok r' ∧
        [(Sample.tst, 11.119499999999368%float)] `prefix_of` r'.
Proof.
  apply (nearest_monotone_in_k Sample.plane_geodesic 40 (-73.1)
           [Sample.jfk; Sample.twin; Sample.lga; Sample.tst] 1 3); [lia|lia|reflexivity].
Defined.

(** X4.  A negative k drops the farthest airports: the query answers as for
    max(0, datasetSize + k). *)
Theorem nearest_negative_k
    (geodesic : float * float → float * float → result float)
    (user_lat user_lon : float) (airports : list airport) (k : Z) :
  k < 0 →
  find_nearest_airports geodesic user_lat user_lon airports k =
  find_nearest_airports geodesic user_lat user_lon airports
    (Z.max 0 (Z.of_nat (length airports) + k)).
Proof.
  intros Hk. unfold find_nearest_airports.
  destruct (distance_loop geodesic _ airports []) as [ds|] eqn:Hloop; simpl; [|done].
  apply distance_loop_inv in Hloop as (ds' & -> & Hfst & _). simpl.
  rewrite !slice_to_take, sort_by_key_length, <- Hfst, length_fmap.
  destruct (Z.ltb_spec k 0), (Z.ltb_spec (Z.max 0 (Z.of_nat (length ds') + k)) 0);
    try lia.
  do 2 f_equal. lia.
Qed.

Lemma nearest_negative_k_witness :
  find_nearest_airports Sample.plane_geodesic 40 (-73.1)
    [Sample.jfk; Sample.twin; Sample.lga; Sample.tst] (-3) =
  find_nearest_airports Sample.plane_geodesic 40 (-73.1)
    [Sample.jfk; Sample.twin; Sample.lga; Sample.tst] (Z.max 0 (Z.of_nat 4 + -3)).
Proof.
  apply (nearest_negative_k Sample.plane_geodesic 40 (-73.1)
           [Sample.jfk; Sample.twin; Sample.lga; Sample.tst] (-3)).
  lia.
Defined.

Lemma sort_by_key_sorted_id {A} (key : A → float) (l : list A) :
  Sorted (key_le key) l → sort_by_key key l = l.
Proof.
  induction 1 as [|x l Hs IH Hhd]; simpl; [done|]. rewrite IH.
  destruct Hhd as [|y l Hxy]; simpl; [done|].
  by rewrite (FloatOrder.leb_nltb _ _ Hxy).
Qed.

(** X5.  A dataset that already lists its airports by non-decreasing
    distance is not reordered: the query returns its first airports in
    dataset order. *)
Theorem nearest_of_ordered_dataset
    (geodesic : float * float → float * float → result float)
    (user_lat user_lon : float) (ds : list (airport * float)) (k : Z) :
  Forall (measured geodesic (user_lat, user_lon)) ds →
  Sorted le_distance ds →
  find_nearest_airports geodesic user_lat user_lon ds.*1 k = Ok (slice_to ds k).
Proof.
  intros Hds Hsorted. unfold find_nearest_airports.
  rewrite (distance_loop_measured geodesic _ ds [] Hds). simpl.
  by rewrite (sort_by_key_sorted_id (A := airport * float) snd).
Qed.

Lemma nearest_of_ordered_dataset_witness :
  find_nearest_airports Sample.plane_geodesic 40 (-73.1)
    [Sample.tst; Sample.heliport; Sample.jfk] 2
  = Ok [(Sample.tst, 11.119499999999368%float);
        (Sample.heliport, 11.119499999999368%float)].
Proof.
  apply (nearest_of_ordered_dataset Sample.plane_geodesic 40 (-73.1)
           [(Sample.tst, 11.119499999999368%float);
            (Sample.heliport, 11.119499999999368%float);
            (Sample.jfk, 103.73064730594437%float)] 2).
  - repeat constructor.
  - repeat constructor.
Defined.

(** ** The three steps of the HUD *)

Lemma fold_left_lines {A B} (f : A → list B) (l : list A) (init : list B) :
  fold_left (λ acc x, acc ++ f x) l init = init ++ flat_map f l.
Proof.
  revert init. induction l as [|x l IH]; intros init; simpl.
  - by rewrite app_nil_r.
  - by rewrite IH, <- app_assoc.
Qed.

Lemma flat_map_airport_line_length (r : list (airport * float)) :
  length (flat_map airport_line r) = (6 * length r)%nat.
Proof. induction r as [|e r IH]; simpl; [done|]. rewrite IH. lia. Qed.

(** X6.  The airport panel shows the header and then one line per airport
    returned by the query with the default k = 5: min(5, datasetSize) lines
    of six parts each, nearest first. *)
Theorem airport_panel
    (geodesic : float * float → float * float → result float)
    (w : world) (user_lat user_lon : float) (airports : list airport) (s : app) :
  Forall (λ a, ∃ d, geodesic (user_lat, user_lon) (location a) = Ok d ∧ not_nan d)
    airports →
  ∃ r s',
    HUD.update_airports geodesic w user_lat user_lon airports s = (Ok tt, s') ∧
    find_nearest_airports geodesic user_lat user_lon airports 5 = Ok r ∧
    airport_label s' = Lit ("Nearest Airports:" +:+ LF) :: flat_map airport_line r ∧
    Z.of_nat (length r) = Z.min 5 (Z.of_nat (length airports)) ∧
    length (airport_label s') = (1 + 6 * length r)%nat ∧
    Sorted le_distance r.
Proof.
  intros Hall.
  destruct (find_nearest_airports_ok geodesic not_nan _ _ _ 5 Hall)
    as (ds & Hfind & Hfst & Hds).
  unfold HUD.update_airports, elapse, lift, set_airport_label, mbind, M_bind,
    default_num_airports.
  simpl. rewrite Hfind. eexists _, _. split; [done|]. simpl.
  rewrite fold_left_lines. simpl.
  split_and!; [done|done| | |].
  - rewrite slice_to_length, sort_by_key_length, <- Hfst, length_fmap. simpl. lia.
  - by rewrite flat_map_airport_line_length.
  - rewrite slice_to_take. apply Sorted_take.
    apply (sort_by_key_sorted (A := airport * float) snd).
    eapply Forall_impl; [exact Hds|]. by intros e [_ He].
Qed.

Lemma airport_panel_witness :
  ∃ r s',
    HUD.update_airports Sample.plane_geodesic Sample.calm 40 (-73.1)
      [Sample.jfk; Sample.tst] (boot 0) = (Ok tt, s') ∧
    find_nearest_airports Sample.plane_geodesic 40 (-73.1) [Sample.jfk; Sample.tst] 5
      = Ok r ∧
    airport_label s' = Lit ("Nearest Airports:" +:+ LF) :: flat_map airport_line r ∧
    Z.of_nat (length r) = Z.min 5 (Z.of_nat 2) ∧
    length (airport_label s') = (1 + 6 * length r)%nat ∧
    Sorted le_distance r.
Proof.
  apply (airport_panel Sample.plane_geodesic Sample.calm 40 (-73.1)
           [Sample.jfk; Sample.tst] (boot 0)).
  repeat constructor; eexists; split; reflexivity.
Defined.

(** X7.  An exception of the airport query leaves [update] after the
    telemetry and weather labels were refreshed: the airport label keeps its
    old content and no next cycle is scheduled. *)
Theorem airport_failure_aborts_cycle
    (geodesic : float * float → float * float → result float)
    (user_lat user_lon : float) (airports : list airport)
    (w : world) (s sw : app) (e : exn) :
  find_nearest_airports geodesic user_lat user_lon airports 5 = Raise e →
  HUD.update_weather w user_lat user_lon s = (Ok tt, sw) →
  ∃ s', update geodesic user_lat user_lon airports w s = (Raise e, s') ∧
        weather_label s' = weather_label sw ∧
        airport_label s' = airport_label s ∧
        after_queue s' = after_queue s.
Proof.
  intros Hfind Hweather. rewrite update_unfold. unfold logged.
  destruct (update_telemetry_frame w s) as (t & -> & _).
  set (s1 := App _ _ _ _ _ _ _).
  destruct (update_weather_indep w user_lat user_lon s1 s) as [Hr Hl].
  destruct (update_weather_frame w user_lat user_lon s1) as (r & tw & out & Hw & _).
  rewrite Hw, Hweather in Hr, Hl. simpl in Hr, Hl. subst r. rewrite Hw.
  unfold HUD.update_airports, elapse, lift, mbind, M_bind, default_num_airports.
  simpl. rewrite Hfind. eexists. split; [done|]. simpl.
  split_and!; [by apply Hl|done|done].
Qed.

Lemma airport_failure_aborts_cycle_witness :
  ∃ s', update Sample.plane_geodesic 40 (-73.1) [Sample.tst; Fixture.polar]
          Sample.calm (boot 0)
        = (Raise (Exn "ValueError" "Latitude must be in the [-90; 90] range."), s') ∧
        weather_label s' =
          weather_label (HUD.update_weather Sample.calm 40 (-73.1) (boot 0)).2 ∧
        airport_label s' = [] ∧
        after_queue s' = [].
Proof.
  apply (airport_failure_aborts_cycle Sample.plane_geodesic 40 (-73.1)
           [Sample.tst; Fixture.polar] Sample.calm (boot 0)
           (HUD.update_weather Sample.calm 40 (-73.1) (boot 0)).2); reflexivity.
Defined.

Lemma ok_prefix {A} (pre : list (result A)) :
  Forall (λ r, is_ok r = true) pre → ∃ vs, pre = Ok <$> vs.
Proof.
  induction 1 as [|[x|e] pre Hx _ [vs ->]]; [by exists []| |done].
  by exists (x :: vs).
Qed.

(** X8.  Reading the telemetry stops at the first attribute that raises, in
    the order latitude, longitude, altitude, ground speed, battery, mode:
    that exception is the one reported, and the telemetry is returned only
    when all six reads return. *)
Theorem get_telemetry_data_first_failure (v : vehicle) :
  (∀ t, HUD.get_telemetry_data v = Ok t ↔
        telemetry_reads v =
          Ok <$> [latitude t; longitude t; altitude t; ground_speed t; battery t; mode t]) ∧
  (∀ pre post e,
     telemetry_reads v = pre ++ Raise e :: post →
     Forall (λ r, is_ok r = true) pre →
     HUD.get_telemetry_data v = Raise e).
Proof.
  destruct v as [lat lon alt speed level mode]. unfold telemetry_reads. simpl. split.
  - intros [t1 t2 t3 t4 t5 t6]. unfold HUD.get_telemetry_data. simpl.
    destruct lat, lon, alt, speed, level, mode; simpl; split; intros;
      simplify_eq; try done.
  - intros pre post e Hreads Hpre. apply ok_prefix in Hpre as [vs ->].
    unfold HUD.get_telemetry_data. simpl.
    do 6 (destruct vs as [|? vs]; simpl in Hreads; [simplify_eq; reflexivity|]).
    simplify_eq. by destruct vs.
Qed.

Lemma get_telemetry_data_first_failure_witness :
  HUD.get_telemetry_data
    (Vehicle (Ok (PyFloat 40.01)) (Ok (PyFloat (-73.05))) (Ok (PyFloat 120.5))
       (Ok (PyFloat 12.25)) (Raise (Exn "AttributeError" "battery"))
       (Raise (Exn "AttributeError" "mode")))
  = Raise (Exn "AttributeError" "battery").
Proof.
  apply (proj2 (get_telemetry_data_first_failure _)
           [Ok (PyFloat 40.01); Ok (PyFloat (-73.05)); Ok (PyFloat 120.5);
            Ok (PyFloat 12.25)]
           [Raise (Exn "AttributeError" "mode")]).
  - reflexivity.
  - repeat constructor.
Defined.


(** X10.  A reply with a status other than 200 is never decoded: whatever
    its body, the label shows the fixed failure text, and the status code
    goes to the console only. *)
Theorem weather_status_goes_to_console
    (w : world) (lat lon : float) (s : app) (status : Z) (body : result pyval) :
  w_weather_api w lat lon = Ok (Response status body) →
  status ≠ 200 →
  HUD.update_weather w lat lon s =
    (Ok tt, App (telemetry_label s) [Lit "Failed to retrieve weather data."]
              (airport_label s)
              (stdout s ++ [[Lit "Failed to retrieve weather data: "; Str (PyInt status)]])
              (now s + Z.of_N (w_weather_ms w)) (after_queue s) (spans s)).
Proof.
  intros Hreply Hstatus.
  unfold HUD.update_weather, get_weather_data, elapse, lift, print, set_weather_label,
    mbind, M_bind, mret, M_ret.
  simpl. rewrite Hreply. simpl. by destruct (Z.eqb_spec status 200).
Qed.

Lemma weather_status_goes_to_console_witness :
  HUD.update_weather (World Sample.flying Sample.server_error 40 350 900 0)
    40 (-73.1) (boot 0) =
    (Ok tt, App [] [Lit "Failed to retrieve weather data."] []
              [[Lit "Failed to retrieve weather data: "; Str (PyInt 500)]]
              350 [] []).
Proof.
  apply (weather_status_goes_to_console
           (World Sample.flying Sample.server_error 40 350 900 0) 40 (-73.1) (boot 0) 500
           (Raise (Exn "JSONDecodeError" "Expecting value: line 1 column 1 (char 0)")));
    [reflexivity|lia].
Defined.

(** X11.  A status-200 reply of an unexpected shape is not contained: a body
    that does not decode, a truthy body that is not an object, and a
    [current_weather] that is not an object each make the weather step
    raise, with the label left as it was. *)
Theorem malformed_weather_reply_raises (w : world) (lat lon : float) (s : app) :
  (∀ e, w_weather_api w lat lon = Ok (Response 200 (Raise e)) →
        (HUD.update_weather w lat lon s).1 = Raise e) ∧
  (∀ v, w_weather_api w lat lon = Ok (Response 200 (Ok v)) →
        truthy v = true → (∀ d, v ≠ PyDict d) →
        (HUD.update_weather w lat lon s).1 =
          Raise (Exn "AttributeError"
                   ("'" +:+ type_name v +:+ "' object has no attribute 'get'"))) ∧
  (∀ d cw, w_weather_api w lat lon = Ok (Response 200 (Ok (PyDict d))) →
           d !! "current_weather" = Some cw → (∀ c, cw ≠ PyDict c) →
           (HUD.update_weather w lat lon s).1 =
             Raise (Exn "AttributeError"
                      ("'" +:+ type_name cw +:+ "' object has no attribute 'get'"))) ∧
  (is_ok (HUD.update_weather w lat lon s).1 = false →
   weather_label (HUD.update_weather w lat lon s).2 = weather_label s).
Proof.
  split_and!.
  - intros e Hreply.
    unfold HUD.update_weather, get_weather_data, elapse, lift, mbind, M_bind.
    simpl. by rewrite Hreply.
  - intros v Hreply Htruthy Hshape.
    unfold HUD.update_weather, get_weather_data, elapse, lift, mbind, M_bind.
    simpl. rewrite Hreply. simpl. rewrite Htruthy.
    destruct v; try done. by edestruct Hshape.
  - intros d cw Hreply Hcw Hshape.
    assert (truthy (PyDict d) = true) as Htruthy.
    { simpl. destruct (Nat.eqb_spec (size d) 0) as [Hsize|]; [|done].
      apply map_size_empty_iff in Hsize. by rewrite Hsize in Hcw. }
    unfold HUD.update_weather, get_weather_data, elapse, lift, mbind, M_bind.
    simpl in *. rewrite Hreply. simpl. rewrite Htruthy, Hcw. simpl.
    destruct cw; try done. by edestruct Hshape.
  - destruct (update_weather_frame w lat lon s) as (r & t & out & -> & Hkept).
    simpl. intros Hr. by rewrite Hkept.
Qed.

Example null_current_weather_raises :
  let reply := Ok (Response 200 (Ok (PyDict {[ "current_weather" := PyNone ]}))) in
  (HUD.update_weather (World Sample.flying (λ _ _, reply) 40 350 900 0)
     40 (-73.1) (boot 0)).1
  = Raise (Exn "AttributeError" "'NoneType' object has no attribute 'get'").
Proof. reflexivity. Qed.

Lemma malformed_weather_reply_raises_witness :
  (HUD.update_weather
     (World Sample.flying (λ _ _, Ok (Response 200 (Ok (PyList [PyInt 1])))) 40 350 900 0)
     40 (-73.1) (boot 0)).1
  = Raise (Exn "AttributeError" "'list' object has no attribute 'get'").
Proof.
  destruct (malformed_weather_reply_raises
              (World Sample.flying (λ _ _, Ok (Response 200 (Ok (PyList [PyInt 1]))))
                 40 350 900 0) 40 (-73.1) (boot 0)) as (_ & Hshape & _).
  apply (Hshape (PyList [PyInt 1])); [reflexivity|reflexivity|done].
Defined.

(** X12.  Whatever makes the weather step raise, the exception leaves
    [update] before the airport step and before the next cycle is
    scheduled. *)
Theorem weather_exception_leaves_cycle
    (geodesic : float * float → float * float → result float)
    (user_lat user_lon : float) (airports : list airport) (w : world) (s : app) (e : exn) :
  (HUD.update_weather w user_lat user_lon s).1 = Raise e →
  ∃ s', update geodesic user_lat user_lon airports w s = (Raise e, s') ∧
        weather_label s' = weather_label s ∧
        airport_label s' = airport_label s ∧
        after_queue s' = after_queue s.
Proof.
  intros Hweather. rewrite update_unfold. unfold logged.
  destruct (update_telemetry_frame w s) as (t & -> & _).
  set (s1 := App _ _ _ _ _ _ _).
  destruct (update_weather_indep w user_lat user_lon s1 s) as [Hr _].
  destruct (update_weather_frame w user_lat user_lon s1) as (r & tw & out & Hw & Hkept).
  rewrite Hw, Hweather in Hr. simpl in Hr. subst r. rewrite Hw.
  eexists. split; [done|]. simpl. split_and!; [by apply Hkept|done|done].
Qed.

Lemma weather_exception_leaves_cycle_witness :
  ∃ s', update Sample.plane_geodesic 40 (-73.1) [Sample.tst]
          (World Sample.flying
             (λ _ _, Ok (Response 200 (Ok (PyList [PyInt 1])))) 40 350 900 0) (boot 0)
        = (Raise (Exn "AttributeError" "'list' object has no attribute 'get'"), s') ∧
        weather_label s' = [] ∧ airport_label s' = [] ∧ after_queue s' = [].
Proof.
  apply (weather_exception_leaves_cycle Sample.plane_geodesic 40 (-73.1) [Sample.tst]
           (World Sample.flying
              (λ _ _, Ok (Response 200 (Ok (PyList [PyInt 1])))) 40 350 900 0) (boot 0)).
  reflexivity.
Defined.

(** X13.  The vehicle cannot influence the rest of a cycle: with another
    vehicle in the same world, [update] returns or raises the same, shows the
    same weather and airports, and leaves the same timers at the same
    time. *)
Theorem telemetry_cannot_interfere
    (geodesic : float * float → float * float → result float)
    (user_lat user_lon : float) (airports : list airport)
    (w : world) (other : vehicle) (s : app) :
  let w' := World other (w_weather_api w) (w_telemetry_ms w) (w_weather_ms w)
              (w_airports_ms w) (w_lag_ms w) in
  let r := update geodesic user_lat user_lon airports w s in
  let r' := update geodesic user_lat user_lon airports w' s in
  r.1 = r'.1 ∧
  weather_label r.2 = weather_label r'.2 ∧
  airport_label r.2 = airport_label r'.2 ∧
  after_queue r.2 = after_queue r'.2 ∧
  now r.2 = now r'.2.
Proof.
  intros w' r r'. subst r r'. rewrite !update_unfold. unfold logged.
  destruct (update_telemetry_frame w s) as (t & -> & _).
  destruct (update_telemetry_frame w' s) as (t' & -> & _). simpl.
  set (s1 := App t _ _ _ _ _ _). set (s1' := App t' _ _ _ _ _ _).
  assert (HUD.update_weather w' user_lat user_lon s1' =
          HUD.update_weather w user_lat user_lon s1') as -> by done.
  destruct (update_weather_indep w user_lat user_lon s1 s1') as [Hr Hl].
  destruct (update_weather_frame w user_lat user_lon s1) as (r2 & t2 & out & Hw & Hkept).
  destruct (update_weather_frame w user_lat user_lon s1')
    as (r2' & t2' & out' & Hw' & Hkept').
  rewrite Hw, Hw' in Hr, Hl |- *. simpl in Hr, Hl. subst r2'.
  destruct r2 as [[]|e2]; simpl in *.
  2: { by rewrite Hkept, Hkept'. }
  specialize (Hl eq_refl). subst t2'.
  set (s2 := App t _ _ _ _ _ _). set (s2' := App t' _ _ _ _ _ _).
  assert (HUD.update_airports geodesic w' user_lat user_lon airports s2' =
          HUD.update_airports geodesic w user_lat user_lon airports s2') as -> by done.
  destruct (update_airports_indep geodesic user_lat user_lon airports w s2 s2')
    as [Hr3 Hl3].
  destruct (update_airports_frame geodesic user_lat user_lon airports w s2)
    as (r3 & t3 & Ha & Hkept3).
  destruct (update_airports_frame geodesic user_lat user_lon airports w s2')
    as (r3' & t3' & Ha' & Hkept3').
  rewrite Ha, Ha' in Hr3, Hl3 |- *. simpl in Hr3, Hl3. subst r3'.
  destruct r3 as [[]|e3]; simpl in *.
  - specialize (Hl3 eq_refl). by subst t3'.
  - by rewrite Hkept3, Hkept3'.
Qed.

(** ** The main block and the main loop *)

(** What one execution of [update] does to the clock, the log and the
    timers. *)
Lemma update_outcome geodesic user_lat user_lon airports w s :
  ∃ r s', update geodesic user_lat user_lon airports w s = (r, s') ∧
          now s ≤ now s' ∧
          spans s' = spans s ++ [(now s, now s')] ∧
          after_queue s' =
            if is_ok r then enqueue (now s' + 5000) (after_queue s) else after_queue s.
Proof.
  rewrite update_unfold. unfold logged.
  destruct (update_telemetry_frame w s) as (t & -> & _).
  set (s1 := App _ _ _ _ _ _ _).
  destruct (update_weather_frame w user_lat user_lon s1) as (r2 & t2 & out & -> & _).
  set (s2 := App _ _ _ _ _ _ _).
  destruct (update_airports_frame geodesic user_lat user_lon airports w s2)
    as (r3 & t3 & -> & _).
  destruct r2 as [[]|e2]; [destruct r3 as [[]|e3]|]; simpl;
    eexists _, _; (split; [reflexivity|]); simpl; split_and!; try lia; auto.
Qed.

Lemma update_succeeds geodesic user_lat user_lon airports w s :
  cycle_succeeds geodesic user_lat user_lon airports w = true →
  (update geodesic user_lat user_lon airports w s).1 = Ok tt.
Proof.
  intros [Hweather Hquery]%andb_prop. rewrite update_unfold. unfold logged.
  destruct (update_telemetry_frame w s) as (t & -> & _).
  set (s1 := App _ _ _ _ _ _ _).
  destruct (update_weather_indep w user_lat user_lon s1 (boot 0)) as [Hr _].
  destruct (HUD.update_weather w user_lat user_lon s1) as [r2 s2]. simpl in Hr.
  rewrite <- Hr in Hweather. destruct r2 as [[]|]; [|done].
  unfold HUD.update_airports, elapse, lift, set_airport_label, root_after, mbind, M_bind.
  simpl. by destruct (find_nearest_airports _ _ _ _ _).
Qed.

Lemma run_timers_idle geodesic user_lat user_lon airports later s :
  after_queue s = [] → run_timers geodesic user_lat user_lon airports later s = s.
Proof. intros Hq. destruct later; simpl; [done|]. by rewrite Hq. Qed.

Lemma run_timers_spans geodesic user_lat user_lon airports later s :
  spans s `prefix_of` spans (run_timers geodesic user_lat user_lon airports later s).
Proof.
  revert s. induction later as [|w later IH]; intros s; simpl; [done|].
  destruct (after_queue s) as [|due pending]; [done|].
  etrans; [|apply IH].
  destruct (update_outcome geodesic user_lat user_lon airports w
              (fire due pending (w_lag_ms w) s)) as (r & s' & Hrun & _ & Hspans & _).
  rewrite Hrun. simpl. rewrite Hspans. simpl. by apply prefix_app_r.
Qed.

(** The main block, case by case. *)
Lemma main_cases geodesic env first later s :
  main geodesic env first later s =
  match read_csv env with
  | Raise e => print [Lit "Error: "; Lit (exn_str e)] s
  | Ok airports =>
      match open_window env with
      | Raise e => print [Lit "Error: "; Lit (exn_str e)] s
      | Ok _ =>
          match ipinfo env with
          | Raise e =>
              (_ ← print [Lit "Failed to retrieve location: "; Lit (exn_str e)];
               print [Lit "Error: "; Lit "Unable to determine user's location."]) s
          | Ok (lat, lon) =>
              if truthy_float lat && truthy_float lon
              then
                match print [Lit "User's location: Latitude "; Str (PyFloat lat);
                             Lit ", Longitude "; Str (PyFloat lon)] s with
                | (_, s1) =>
                    match connect env with
                    | Raise e => print [Lit "Error: "; Lit (exn_str e)] s1
                    | Ok _ =>
                        match update geodesic lat lon airports first s1 with
                        | (Ok _, s2) =>
                            (Ok tt, run_timers geodesic lat lon airports later s2)
                        | (Raise e, s2) => print [Lit "Error: "; Lit (exn_str e)] s2
                        end
                    end
                end
              else print [Lit "Error: "; Lit "Unable to determine user's location."] s
          end
      end
  end.
Proof.
  unfold main, get_user_location, try_except, raise, lift, print, mainloop,
    mbind at 1 2 3 4 5 6 7, M_bind, mret, M_ret.
  simpl. destruct (read_csv env) as [airports|e]; simpl; [|done].
  destruct (open_window env) as [[]|e]; simpl; [|done].
  destruct (ipinfo env) as [[lat lon]|e]; simpl; [|done].
  destruct (truthy_float lat && truthy_float lon); simpl; [|done].
  destruct (connect env) as [[]|e]; simpl; [|done].
  by destruct (update _ _ _ _ _ _) as [[[]|e] s2].
Qed.

Lemma truthy_float_spec (lat lon : float) :
  truthy_float lat && truthy_float lon = true ↔
  (lat =? 0)%float = false ∧ (lon =? 0)%float = false.
Proof.
  unfold truthy_float. rewrite andb_true_iff, !negb_true_iff. done.
Qed.

Lemma update_cycling geodesic user_lat user_lon airports w s :
  cycling (update geodesic user_lat user_lon airports w s).2 = true.
Proof.
  destruct (update_outcome geodesic user_lat user_lon airports w s)
    as (r & s' & Hrun & _ & Hspans & _).
  rewrite Hrun. unfold cycling. simpl. rewrite Hspans, length_app. simpl.
  by rewrite Nat.add_1_r.
Qed.

Lemma run_timers_cycling geodesic user_lat user_lon airports later s :
  cycling s = true →
  cycling (run_timers geodesic user_lat user_lon airports later s) = true.
Proof.
  unfold cycling. intros Hs.
  destruct (run_timers_spans geodesic user_lat user_lon airports later s) as [more ->].
  rewrite length_app. destruct (spans s); [done|]. done.
Qed.

(** X14.  The engine starts cycling exactly when the dataset loads, the
    window is built ([Tk()] and [HUD(root)] return), the location resolves to
    two coordinates different from zero, and the vehicle connects. *)
Theorem cycling_iff
    (geodesic : float * float → float * float → result float)
    (env : startup) (first : world) (later : list world) (t0 : Z) :
  cycling (main geodesic env first later (boot t0)).2 = true ↔
  ∃ airports lat lon,
    read_csv env = Ok airports ∧ open_window env = Ok tt ∧
    ipinfo env = Ok (lat, lon) ∧
    (lat =? 0)%float = false ∧ (lon =? 0)%float = false ∧
    connect env = Ok tt.
Proof.
  rewrite main_cases.
  destruct (read_csv env) as [airports|e].
  2: { split; [done|]. by intros (? & ? & ? & ? & _). }
  destruct (open_window env) as [[]|e].
  2: { split; [done|]. by intros (? & ? & ? & _ & ? & _). }
  destruct (ipinfo env) as [[lat lon]|e].
  2: { split; [done|]. by intros (? & ? & ? & _ & _ & ? & _). }
  destruct (truthy_float lat && truthy_float lon) eqn:Hknown.
  2: { split; [done|]. intros (? & lat' & lon' & _ & _ & [= <- <-] & Hlat & Hlon & _).
       apply not_true_iff_false in Hknown. destruct Hknown.
       by apply truthy_float_spec. }
  apply truthy_float_spec in Hknown as [Hlat Hlon].
  unfold print at 1. simpl.
  destruct (connect env) as [[]|e].
  2: { split; [done|]. by intros (? & ? & ? & _ & _ & _ & _ & _ & ?). }
  match goal with |- context [update ?g ?a ?b ?c ?w ?s] =>
    pose proof (update_cycling g a b c w s) as Hran;
    destruct (update g a b c w s) as [[[]|e] s2] end; simpl in *.
  - split; [by eauto 10|]. intros _. by apply run_timers_cycling.
  - split; [by eauto 10|]. intros _. done.
Qed.

(** X15.  The main block never raises, and a failed startup is reported on
    the console by the first step that fails: a dataset that does not load
    is reported before the window is built, a window that cannot be built
    ([Tk()] or [HUD(root)] raising) before the location is asked for, an
    unresolved or zero location as "Unable to determine user's location.",
    a failed connection after the location line. *)
Theorem startup_failure_report
    (geodesic : float * float → float * float → result float)
    (env : startup) (first : world) (later : list world) (s : app) :
  (main geodesic env first later s).1 = Ok tt ∧
  (∀ e, read_csv env = Raise e →
        main geodesic env first later s = print [Lit "Error: "; Lit (exn_str e)] s) ∧
  (∀ airports e, read_csv env = Ok airports → open_window env = Raise e →
        main geodesic env first later s = print [Lit "Error: "; Lit (exn_str e)] s) ∧
  (∀ airports e, read_csv env = Ok airports → open_window env = Ok tt →
        ipinfo env = Raise e →
        main geodesic env first later s =
          (_ ← print [Lit "Failed to retrieve location: "; Lit (exn_str e)];
           print [Lit "Error: "; Lit "Unable to determine user's location."]) s) ∧
  (∀ airports lat lon, read_csv env = Ok airports → open_window env = Ok tt →
        ipinfo env = Ok (lat, lon) →
        (lat =? 0)%float = true ∨ (lon =? 0)%float = true →
        main geodesic env first later s =
          print [Lit "Error: "; Lit "Unable to determine user's location."] s) ∧
  (∀ airports lat lon e, read_csv env = Ok airports → open_window env = Ok tt →
        ipinfo env = Ok (lat, lon) →
        (lat =? 0)%float = false → (lon =? 0)%float = false →
        connect env = Raise e →
        main geodesic env first later s =
          (_ ← print [Lit "User's location: Latitude "; Str (PyFloat lat);
                      Lit ", Longitude "; Str (PyFloat lon)];
           print [Lit "Error: "; Lit (exn_str e)]) s).
Proof.
  rewrite main_cases. split_and!.
  - destruct (read_csv env); [|done]. destruct (open_window env); [|done].
    destruct (ipinfo env) as [[lat lon]|]; [|done].
    destruct (truthy_float lat && truthy_float lon); [|done]. simpl.
    destruct (connect env); [|done].
    by destruct (update _ _ _ _ _ _) as [[[]|] ?].
  - by intros e ->.
  - by intros airports e -> ->.
  - by intros airports e -> -> ->.
  - intros airports lat lon -> -> -> Hzero.
    assert (truthy_float lat && truthy_float lon = false) as ->; [|done].
    unfold truthy_float. destruct Hzero as [-> | ->]; [done|]. by rewrite andb_false_r.
  - intros airports lat lon e -> -> -> Hlat Hlon ->.
    by rewrite (proj2 (truthy_float_spec lat lon)).
Qed.

Lemma startup_failure_report_witness :
  main Sample.plane_geodesic Sample.headless Sample.calm [Sample.calm] (boot 0)
  = print [Lit "Error: "; Lit "no display name and no $DISPLAY environment variable"]
      (boot 0).
Proof.
  destruct (startup_failure_report Sample.plane_geodesic Sample.headless
              Sample.calm [Sample.calm] (boot 0)) as (_ & _ & Hwindow & _).
  apply (Hwindow [Sample.jfk; Sample.tst; Sample.lga]
           (Exn "TclError" "no display name and no $DISPLAY environment variable"));
    reflexivity.
Defined.

(** X16.  A timer callback that raises is the last one: nothing registers
    the next timer, so the loop idles whatever the world does later and the
    HUD stays as that execution left it. *)
Theorem frozen_after_failed_callback
    (geodesic : float * float → float * float → result float)
    (user_lat user_lon : float) (airports : list airport)
    (w : world) (later : list world) (s : app) (due : Z) (e : exn) :
  after_queue s = [due] →
  (update geodesic user_lat user_lon airports w (fire due [] (w_lag_ms w) s)).1 = Raise e →
  run_timers geodesic user_lat user_lon airports (w :: later) s =
  (update geodesic user_lat user_lon airports w (fire due [] (w_lag_ms w) s)).2.
Proof.
  intros Hqueue Hraise. simpl. rewrite Hqueue.
  apply run_timers_idle.
  destruct (update_outcome geodesic user_lat user_lon airports w
              (fire due [] (w_lag_ms w) s)) as (r & s' & Hrun & _ & _ & Hafter).
  rewrite Hrun in Hraise |- *. simpl in *. by rewrite Hafter, Hraise.
Qed.

Lemma frozen_after_failed_callback_witness :
  let s := (update Sample.plane_geodesic 40 (-73.1) [Sample.tst] Sample.calm (boot 0)).2 in
  run_timers Sample.plane_geodesic 40 (-73.1) [Sample.tst]
    (Sample.weather_down :: [Sample.calm; Sample.calm]) s =
  (update Sample.plane_geodesic 40 (-73.1) [Sample.tst] Sample.weather_down
     (fire 6290 [] (w_lag_ms Sample.weather_down) s)).2.
Proof.
  intros s.
  apply (frozen_after_failed_callback Sample.plane_geodesic 40 (-73.1) [Sample.tst]
           Sample.weather_down [Sample.calm; Sample.calm] s 6290
           (Exn "ConnectionError" "Max retries exceeded with url: /v1/forecast"));
    reflexivity.
Defined.

Lemma run_timers_all_succeed geodesic user_lat user_lon airports later s due :
  Forall (λ w, cycle_succeeds geodesic user_lat user_lon airports w = true) later →
  after_queue s = [due] →
  let s' := run_timers geodesic user_lat user_lon airports later s in
  length (spans s') = (length (spans s) + length later)%nat ∧
  ∃ due', after_queue s' = [due'].
Proof.
  intros Hall. revert s due.
  induction Hall as [|w later Hw _ IH]; intros s due Hqueue; simpl.
  - split; [lia|by eauto].
  - rewrite Hqueue.
    pose proof (update_succeeds geodesic user_lat user_lon airports w
                  (fire due [] (w_lag_ms w) s) Hw) as Hok.
    destruct (update_outcome geodesic user_lat user_lon airports w
                (fire due [] (w_lag_ms w) s)) as (r & s1 & Hrun & _ & Hspans & Hafter).
    rewrite Hrun in Hok |- *. simpl in Hok. subst r. simpl in *.
    destruct (IH s1 _ Hafter) as [Hlen Hdue]. split; [|done].
    rewrite Hlen, Hspans, length_app. simpl. lia.
Qed.

(** X17.  As long as the weather step and the airport query return, the
    engine keeps cycling: after a successful startup (dataset loaded, window
    built, location resolved and different from zero, vehicle connected), a
    first world and n later ones give n + 1 executions and leave exactly one
    timer pending. *)
Theorem keeps_cycling
    (geodesic : float * float → float * float → result float)
    (env : startup) (first : world) (later : list world) (t0 : Z)
    (airports : list airport) (lat lon : float) :
  read_csv env = Ok airports → open_window env = Ok tt →
  ipinfo env = Ok (lat, lon) →
  (lat =? 0)%float = false → (lon =? 0)%float = false →
  connect env = Ok tt →
  Forall (λ w, cycle_succeeds geodesic lat lon airports w = true) (first :: later) →
  length (spans (main geodesic env first later (boot t0)).2) = S (length later) ∧
  ∃ due, after_queue (main geodesic env first later (boot t0)).2 = [due].
Proof.
  intros Hcsv Hwindow Hloc Hlat Hlon Hconnect Hall.
  inversion_clear Hall as [|? ? Hfirst Hlater].
  rewrite main_cases, Hcsv, Hwindow, Hloc, (proj2 (truthy_float_spec lat lon)) by done.
  unfold print at 1. simpl. rewrite Hconnect.
  set (s1 := App _ _ _ _ _ _ _).
  pose proof (update_succeeds geodesic lat lon airports first s1 Hfirst) as Hok.
  destruct (update_outcome geodesic lat lon airports first s1)
    as (r & s2 & Hrun & _ & Hspans & Hafter).
  rewrite Hrun in Hok |- *. simpl in Hok. subst r. simpl in *.
  destruct (run_timers_all_succeed geodesic lat lon airports later s2 _ Hlater Hafter)
    as [Hlen Hdue].
  split; [|done]. rewrite Hlen, Hspans. simpl. lia.
Qed.

Lemma keeps_cycling_witness :
  length (spans (main Sample.plane_geodesic Sample.here Sample.calm
                   [Sample.telemetry_down; Sample.calm] (boot 1000)).2) = 3%nat ∧
  ∃ due, after_queue (main Sample.plane_geodesic Sample.here Sample.calm
                        [Sample.telemetry_down; Sample.calm] (boot 1000)).2 = [due].
Proof.
  apply (keeps_cycling Sample.plane_geodesic Sample.here Sample.calm
           [Sample.telemetry_down; Sample.calm] 1000 [Sample.jfk; Sample.tst; Sample.lga]
           40.0%float (-73.1)%float); try reflexivity.
  repeat constructor.
Defined.

Lemma separated_lookup l i a0 b0 a b :
  separated l → l !! 0%nat = Some (a0, b0) → l !! i = Some (a, b) →
  a0 + 5000 * Z.of_nat i ≤ a.
Proof.
  revert l a0 b0. induction i as [|i IH]; intros l a0 b0 Hsep H0 Hi.
  - rewrite H0 in Hi. injection Hi as -> _. lia.
  - destruct l as [|[x y] l]; [done|]. simpl in H0, Hi. injection H0 as -> ->.
    destruct l as [|[c d] l]; [done|].
    destruct Hsep as (Hab & Hnext & Hsep).
    pose proof (IH ((c, d) :: l) c d Hsep eq_refl Hi). lia.
Qed.

Lemma main_first_span geodesic env first later t0 a b :
  spans (main geodesic env first later (boot t0)).2 !! 0%nat = Some (a, b) → a = t0.
Proof.
  rewrite main_cases.
  destruct (read_csv env) as [airports|e]; [|done].
  destruct (open_window env) as [[]|e]; [|done].
  destruct (ipinfo env) as [[lat lon]|e]; [|done].
  destruct (truthy_float lat && truthy_float lon); [|done].
  unfold print at 1. simpl.
  destruct (connect env) as [[]|e]; [|done].
  set (s1 := App _ _ _ _ _ _ _).
  destruct (update_outcome geodesic lat lon airports first s1)
    as (r & s2 & Hrun & _ & Hspans & _).
  rewrite Hrun. simpl in Hspans. destruct r as [[]|e]; simpl.
  - destruct (run_timers_spans geodesic lat lon airports later s2) as [more ->].
    rewrite Hspans. simpl. by intros [= -> _].
  - rewrite Hspans. simpl. by intros [= -> _].
Qed.

(** X18.  The refresh rate is bounded: the execution of [update] number i
    (counting from 0) is never entered before 5000 i ms after the script
    started. *)
Theorem cadence_bound
    (geodesic : float * float → float * float → result float)
    (env : startup) (first : world) (later : list world) (t0 : Z)
    (i : nat) (entered exited : Z) :
  spans (main geodesic env first later (boot t0)).2 !! i = Some (entered, exited) →
  t0 + 5000 * Z.of_nat i ≤ entered.
Proof.
  intros Hi. destruct (main_paced geodesic env first later t0) as [Hsep _].
  destruct (spans (main geodesic env first later (boot t0)).2 !! 0%nat)
    as [[a0 b0]|] eqn:H0.
  - rewrite <- (main_first_span _ _ _ _ _ _ _ H0).
    by eapply separated_lookup.
  - apply lookup_lt_Some in Hi. apply lookup_ge_None in H0. lia.
Qed.

Lemma cadence_bound_witness :
  spans (main Sample.plane_geodesic Sample.here Sample.calm
           [Sample.telemetry_down; Sample.calm; Sample.calm] (boot 1000)).2 !! 2%nat
  = Some (15543, 16833) ∧
  1000 + 5000 * Z.of_nat 2 ≤ 15543.
Proof.
  split; [reflexivity|].
  apply (cadence_bound Sample.plane_geodesic Sample.here Sample.calm
           [Sample.telemetry_down; Sample.calm; Sample.calm] 1000 2 15543 16833).
  reflexivity.
Defined.

(** ** The location service *)

Lemma split_on_nonempty (sep : ascii) (s : string) : split_on sep s ≠ [].
Proof.
  destruct s as [|c s]; simpl; [done|].
  destruct (Ascii.eqb c sep); [done|]. by destruct (split_on sep s).
Qed.

(** Splitting loses nothing: the parts joined by the separator are the
    string again. *)
Lemma split_on_join (sep : ascii) (s : string) :
  String.concat (String sep "") (split_on sep s) = s.
Proof.
  induction s as [|c s IH]; [done|]. simpl.
  pose proof (split_on_nonempty sep s) as Hne.
  destruct (Ascii.eqb_spec c sep) as [->|Hc];
    destruct (split_on sep s) as [|part parts]; try done.
  - simpl in *. by rewrite IH.
  - simpl in *. destruct parts; simpl in *; by rewrite <- IH.
Qed.

Section LocationFacts.
Variable py_float : string → result float.

Lemma request_location_spec (reply : result response) (lat lon : float) :
  request_location py_float reply = Ok (lat, lon) ↔
  ∃ status d s first second rest,
    reply = Ok (Response status (Ok (PyDict d))) ∧
    d !! "loc" = Some (PyStr s) ∧
    split_on ","%char s = first :: second :: rest ∧
    py_float first = Ok lat ∧ py_float second = Ok lon.
Proof.
  unfold request_location. split.
  - destruct reply as [[status [data|]]|]; simpl; try done.
    destruct data as [| | | | | |d]; simpl; try done.
    destruct (d !! "loc") as [loc_field|] eqn:Hloc; simpl; [|done].
    destruct loc_field as [| | | |s| |]; simpl; try done.
    destruct (split_on ","%char s) as [|first [|second rest]] eqn:Hsplit; simpl; try done.
    { by destruct (py_float first). }
    destruct (py_float first) as [x|] eqn:Hfirst; simpl; [|done].
    destruct (py_float second) as [y|] eqn:Hsecond; simpl; [|done].
    intros [= <- <-]. by exists status, d, s, first, second, rest.
  - intros (status & d & s & first & second & rest & -> & Hloc & Hsplit & Hfirst & Hsecond).
    simpl. rewrite Hloc. simpl. rewrite Hsplit. simpl. rewrite Hfirst. simpl.
    by rewrite Hsecond.
Qed.

(** X19.  [get_user_location] never raises and never returns half a
    location.  It returns two coordinates, printing nothing, exactly when
    the reply decodes to an object whose [loc] is a string with at least two
    comma-separated parts of which the first two convert to floats; the
    status of the reply is not looked at and further parts are ignored.  In
    every other case it prints one line and returns (None, None). *)
Theorem location_resolved_iff (env : startup) (reply : result response) (s : app) :
  ipinfo env = request_location py_float reply →
  ∃ r s',
    get_user_location env s = (Ok r, s') ∧
    (∀ lat lon,
       r = (Some lat, Some lon) ↔
       ∃ status d loc first second rest,
         reply = Ok (Response status (Ok (PyDict d))) ∧
         d !! "loc" = Some (PyStr loc) ∧
         split_on ","%char loc = first :: second :: rest ∧
         py_float first = Ok lat ∧ py_float second = Ok lon) ∧
    ((∃ lat lon, r = (Some lat, Some lon) ∧ s' = s) ∨
     (r = (None, None) ∧
      ∃ e, request_location py_float reply = Raise e ∧
           s' = (print [Lit "Failed to retrieve location: "; Lit (exn_str e)] s).2)).
Proof.
  intros Henv.
  unfold get_user_location, try_except, lift, mbind, M_bind, mret, M_ret.
  rewrite Henv.
  destruct (request_location py_float reply) as [[lat lon]|e] eqn:Hrequest; simpl.
  - eexists _, _. split; [done|]. split.
    + intros lat' lon'. rewrite <- request_location_spec, Hrequest.
      split; intros; by simplify_eq.
    + left. by eauto.
  - eexists _, _. split; [done|]. split.
    + intros lat' lon'. rewrite <- request_location_spec, Hrequest. done.
    + right. by eauto.
Qed.
End LocationFacts.

Lemma location_resolved_iff_witness :
  ∃ r s',
    get_user_location
      (Startup (Ok []) (Ok tt) (request_location Fixture.parse_float
                          (Fixture.ipinfo_reply "40.0,-73.1,extra")) (Ok tt)) (boot 0)
    = (Ok r, s') ∧ r = (Some 40.0%float, Some (-73.1)%float) ∧ s' = boot 0.
Proof.
  destruct (location_resolved_iff Fixture.parse_float
              (Startup (Ok []) (Ok tt) (request_location Fixture.parse_float
                                  (Fixture.ipinfo_reply "40.0,-73.1,extra")) (Ok tt))
              (Fixture.ipinfo_reply "40.0,-73.1,extra") (boot 0) eq_refl)
    as (r & s' & Hrun & _ & _).
  exists r, s'. split; [exact Hrun|].
  vm_compute in Hrun. by injection Hrun as <- <-.
Defined.

Example location_without_comma :
  get_user_location
    (Startup (Ok []) (Ok tt) (request_location Fixture.parse_float (Fixture.ipinfo_reply "40.0"))
       (Ok tt)) (boot 0)
  = (Ok (None, None),
     App [] [] [] [[Lit "Failed to retrieve location: "; Lit "list index out of range"]]
       0 [] []).
Proof. reflexivity. Qed.

Example location_rate_limited :
  get_user_location
    (Startup (Ok []) (Ok tt) (request_location Fixture.parse_float Fixture.rate_limited) (Ok tt))
    (boot 0)
  = (Ok (None, None),
     App [] [] [] [[Lit "Failed to retrieve location: "; Lit "'loc'"]] 0 [] []).
Proof. reflexivity. Qed.
